(** * ExcelFusion: the loader, the merge engine and the export encoder

    A shallow embedding of [src/ExcelFusion/utils.py] ([read_file],
    [merge_dataframes], [get_download_buffer]) and the properties of
    the specification that are about them.

    Python exceptions are values of [exn] and every fallible function
    returns a [result]; a [try ... except Exception as e] block is
    [try_except].  Dictionaries are [gmap]s, Python sets are [gset]s,
    and the order in which Python enumerates a set is a parameter of
    the development (it depends on string hashing). *)

From Stdlib Require Import ZArith Ascii String DecimalString.
From stdpp Require Import base option list sets gmap strings.

(** ** Exceptions and the error monad *)

Module Py.

(** The exceptions the three functions can let escape: the built-in
    classes the source raises or lets through, and [LibraryError] for
    any other class raised inside pandas (its class name is carried).
    A [KeyError] carries the label that was not found; the sentence
    pandas builds around it is not modelled.  [KeyErrorInt] is the
    [KeyError] of a dictionary with integer keys. *)
Inductive exn : Type :=
  | ValueError (msg : string)
  | KeyError (key : string)
  | KeyErrorInt (key : nat)
  | IndexError (msg : string)
  | LibraryError (cls : string) (msg : string).

(** [str(i)] for a non-negative integer. *)
Definition str_nat (i : nat) : string := NilZero.string_of_uint (Nat.to_uint i).

(** [str(e)]: Python prints a [KeyError] as the repr of its key. *)
Definition str (e : exn) : string :=
  match e with
  | ValueError msg => msg
  | KeyError key => "'" +:+ key +:+ "'"
  | KeyErrorInt key => str_nat key
  | IndexError msg => msg
  | LibraryError _ msg => msg
  end.

(** [type(e).__name__]: what an [except <Class>] clause dispatches on. *)
Definition class_name (e : exn) : string :=
  match e with
  | ValueError _ => "ValueError"
  | KeyError _ => "KeyError"
  | KeyErrorInt _ => "KeyError"
  | IndexError _ => "IndexError"
  | LibraryError cls _ => cls
  end.

Inductive result (A : Type) : Type :=
  | Ok (a : A)
  | Raise (e : exn).
Arguments Ok {A} a.
Arguments Raise {A} e.

#[global] Instance result_ret : MRet result := @Ok.
#[global] Instance result_bind : MBind result := λ A B f m,
  match m with
  | Ok a => f a
  | Raise e => Raise e
  end.
#[global] Instance result_fmap : FMap result := λ A B f m,
  match m with
  | Ok a => Ok (f a)
  | Raise e => Raise e
  end.

(** [try: body except Exception as e: handler e]. *)
Definition try_except {A} (body : result A) (handler : exn → result A) : result A :=
  match body with
  | Ok a => Ok a
  | Raise e => handler e
  end.

(** [d[k]] on a dictionary: a missing key raises [KeyError]. *)
Definition dict_getitem {V} (d : gmap string V) (k : string) : result V :=
  match d !! k with
  | Some v => Ok v
  | None => Raise (KeyError k)
  end.

(** [l[i]] on a list: an index out of range raises [IndexError]. *)
Definition list_getitem {A} (l : list A) (i : nat) : result A :=
  match l !! i with
  | Some a => Ok a
  | None => Raise (IndexError "list index out of range")
  end.

(** [s.endswith(suffix)]. *)
Definition endswith (s suffix : string) : bool :=
  let n := String.length s in
  let m := String.length suffix in
  if decide (m ≤ n) then String.eqb (String.substring (n - m) m s) suffix
  else false.

(** [s.split(sep)] for a one-character separator: never empty. *)
Fixpoint split (sep : ascii) (s : string) : list string :=
  match s with
  | EmptyString => [EmptyString]
  | String c s' =>
      if Ascii.eqb c sep then EmptyString :: split sep s'
      else match split sep s' with
           | w :: ws => String c w :: ws
           | [] => [String c EmptyString]
           end
  end.

End Py.
Export Py.

(** ** Tables *)

(** A cell: an integer, a string, or the null marker of a missing
    cell.  Floating-point cells other than the NaN of a missing cell
    are outside the model.  How a Python [set] treats the null cells
    of a column is part of [key_set]. *)
Inductive value : Type :=
  | VInt (z : Z)
  | VStr (s : string)
  | VNull.

#[global] Instance value_eq_dec : EqDecision value.
Proof. solve_decision. Defined.

Definition value_to_sum (v : value) : Z + string + unit :=
  match v with
  | VInt z => inl (inl z)
  | VStr s => inl (inr s)
  | VNull => inr tt
  end.

Definition value_of_sum (x : Z + string + unit) : value :=
  match x with
  | inl (inl z) => VInt z
  | inl (inr s) => VStr s
  | inr _ => VNull
  end.

#[global] Instance value_countable : Countable value.
Proof.
  refine (inj_countable' value_to_sum value_of_sum _).
  by intros [].
Defined.

(** A [pandas.DataFrame]: the column labels in order and the rows,
    each row holding one cell per column. *)
Record DataFrame : Type := mkDataFrame {
  columns : list string;
  rows : list (list value)
}.

#[global] Instance DataFrame_eq_dec : EqDecision DataFrame.
Proof. solve_decision. Defined.

(** [len(df)]: the number of rows. *)
Definition len (df : DataFrame) : nat := length (rows df).

(** The position of the first column labelled [c]. *)
Fixpoint col_index (c : string) (cols : list string) : option nat :=
  match cols with
  | [] => None
  | c' :: cols' => if decide (c' = c) then Some 0 else S <$> col_index c cols'
  end.

Definition cell (r : list value) (j : nat) : value := default VNull (r !! j).

Module Pandas.

(** Modelled from the spec: pandas is a library, not under src/.  Its
    operations follow the data model of the spec (a table is an
    ordered sequence of uniquely named columns over shared rows); on a
    label that occurs twice the first column is taken. *)

(** [df[c]] read as a sequence of cells: [KeyError] on a missing label. *)
Definition getitem_col (df : DataFrame) (c : string) : result (list value) :=
  match col_index c (columns df) with
  | Some j => Ok ((λ r, cell r j) <$> rows df)
  | None => Raise (KeyError c)
  end.

(** The positions of the labels [cols], or the first label that is missing. *)
Fixpoint col_indices (have cols : list string) : result (list nat) :=
  match cols with
  | [] => Ok []
  | c :: cols' =>
      match col_index c have with
      | Some j => (j ::.) <$> col_indices have cols'
      | None => Raise (KeyError c)
      end
  end.

(** [df[cols].copy()]: the columns [cols], in that order, over the same
    rows in the same order; [KeyError] when a label is missing. *)
Definition getitem_cols (df : DataFrame) (cols : list string) : result DataFrame :=
  js ← col_indices (columns df) cols;
  Ok (mkDataFrame cols ((λ r, fmap (M:=list) (cell r) js) <$> rows df)).

(** [df.rename(columns=d)]: a label that is a key of [d] is replaced. *)
Definition rename (df : DataFrame) (d : gmap string string) : DataFrame :=
  mkDataFrame ((λ c, default c (d !! c)) <$> columns df) (rows df).

(** The cells of [r] whose column label is not [c]. *)
Fixpoint drop_cells (c : string) (cols : list string) (r : list value) : list value :=
  match cols, r with
  | c' :: cols', v :: r' =>
      if decide (c' = c) then drop_cells c cols' r' else v :: drop_cells c cols' r'
  | _, _ => []
  end.

(** [df.drop(c, axis=1)]: [KeyError] when no column is labelled [c]. *)
Definition drop (df : DataFrame) (c : string) : result DataFrame :=
  match col_index c (columns df) with
  | Some _ =>
      Ok (mkDataFrame (filter (λ c', c' ≠ c) (columns df))
                      (drop_cells c (columns df) <$> rows df))
  | None => Raise (KeyError c)
  end.

(** The join modes of [DataFrame.merge] that the engine is used with. *)
Inductive JoinMode : Type := Outer | Inner | Left | Right.

Definition how_of_string (how : string) : option JoinMode :=
  if decide (how = "outer") then Some Outer
  else if decide (how = "inner") then Some Inner
  else if decide (how = "left") then Some Left
  else if decide (how = "right") then Some Right
  else None.

(** Whether two key cells join.  [null_match] is the rule for null
    keys, which the spec leaves to the join implementation: [true]
    lets a null key join another null key, [false] never joins one. *)
Definition key_match (null_match : bool) (a b : value) : bool :=
  bool_decide (a = b) && (null_match || negb (bool_decide (a = VNull))).

(** The row [r] without its cell at position [j]. *)
Definition without (j : nat) (r : list value) : list value := take j r ++ List.skipn (S j) r.

Section merge.
Variable null_match : bool.
Variables left right : DataFrame.
Variables li ri : nat.
(** The two key columns carry one label: the result keeps one of them. *)
Variable same : bool.

Definition right_cols : list string :=
  if same then take ri (columns right) ++ List.skipn (S ri) (columns right)
  else columns right.
Definition right_cells (r : list value) : list value :=
  if same then without ri r else r.
(** The left side of a row that only the right table has: nulls, and
    the key itself where the key column is shared. *)
Definition left_nulls (r : list value) : list value :=
  let blank := replicate (length (columns left)) VNull in
  if same then <[li := cell r ri]> blank else blank.
Definition right_nulls : list value := replicate (length right_cols) VNull.

Definition matches_right (l : list value) : list (list value) :=
  filter (λ r, key_match null_match (cell l li) (cell r ri) = true) (rows right).
Definition matches_left (r : list value) : list (list value) :=
  filter (λ l, key_match null_match (cell l li) (cell r ri) = true) (rows left).

(** Every left row, once per matching right row; an unmatched left
    row is kept, padded with nulls, when [keep] is set. *)
Definition from_left (keep : bool) : list (list value) :=
  l ← rows left;
  match matches_right l with
  | [] => if keep then [l ++ right_nulls] else []
  | ms => (λ r, l ++ right_cells r) <$> ms
  end.
(** Every right row, once per matching left row; an unmatched right
    row is kept, padded on its left, when [keep] is set. *)
Definition from_right (keep : bool) : list (list value) :=
  r ← rows right;
  match matches_left r with
  | [] => if keep then [left_nulls r ++ right_cells r] else []
  | ms => (λ l, l ++ right_cells r) <$> ms
  end.
Definition only_right : list (list value) :=
  r ← rows right;
  match matches_left r with
  | [] => [left_nulls r ++ right_cells r]
  | _ => []
  end.

Definition joined_rows (mode : JoinMode) : list (list value) :=
  match mode with
  | Outer => from_left true ++ only_right
  | Inner => from_left false
  | Left => from_left true
  | Right => from_right true
  end.

(** A label carried by both sides is told apart by [_x] and [_y]. *)
Definition joined_columns : list string :=
  ((λ c, if decide (c ∈ right_cols) then c +:+ "_x" else c) <$> columns left)
  ++ ((λ c, if decide (c ∈ columns left) then c +:+ "_y" else c) <$> right_cols).
End merge.

(** Modelled from the spec: [left.merge(right, left_on=, right_on=,
    how=)] of pandas, which is not under src/.  Outer keeps every key
    of either side, inner the keys of both, left those of the left
    table, right those of the right table, the absent side filled with
    nulls; equal keys on both sides give a row for every pair.  A
    missing key column is a [KeyError], an unknown mode a
    [ValueError].  Rows of an outer join come left table first. *)
Definition merge (null_match : bool) (left right : DataFrame)
    (left_on right_on how : string) : result DataFrame :=
  match how_of_string how with
  | None => Raise (ValueError ("'" +:+ how +:+ "' is not a valid Merge type"))
  | Some mode =>
      match col_index left_on (columns left), col_index right_on (columns right) with
      | None, _ => Raise (KeyError left_on)
      | _, None => Raise (KeyError right_on)
      | Some li, Some ri =>
          let same := bool_decide (left_on = right_on) in
          Ok (mkDataFrame (joined_columns left right ri same)
                          (joined_rows null_match left right li ri same mode))
      end
  end.

(** Modelled from the spec: what [to_csv] and [to_excel] of pandas
    write, as cells rather than bytes: the header record and the data
    records of a CSV text, or the sheets of a workbook.  With [index]
    set pandas adds a leading column holding the row numbers.  The
    workbook writer refuses a text with a control character; what
    else a writer may refuse (a sheet too large for the format) is
    not part of this model, and the encoder below is stated for
    every writer. *)
Inductive Buffer : Type :=
  | CsvText (header : list string) (records : list (list value))
  | Workbook (sheets : list (string * (list string * list (list value)))).

Definition indexed (rs : list (list value)) : list (list value) :=
  imap (λ i r, VInt (Z.of_nat i) :: r) rs.

Definition to_csv (df : DataFrame) (index : bool) : result Buffer :=
  if index then Ok (CsvText (EmptyString :: columns df) (indexed (rows df)))
  else Ok (CsvText (columns df) (rows df)).

(** The characters a worksheet cell may not hold: the control
    characters other than tab, line feed and carriage return. *)
Definition illegal_char (c : ascii) : bool :=
  let n := nat_of_ascii c in
  (n <=? 8) || ((11 <=? n) && (n <=? 12)) || ((14 <=? n) && (n <=? 31)).

Definition illegal_text (s : string) : bool :=
  existsb illegal_char (list_ascii_of_string s).

(** The texts written to the sheet: the header, then the rows. *)
Definition cell_texts (df : DataFrame) : list string :=
  columns df
  ++ (r ← rows df; omap (λ v, match v with VStr s => Some s | _ => None end) r).

Definition to_excel (df : DataFrame) (index : bool) : result Buffer :=
  match List.find illegal_text (cell_texts df) with
  | Some s =>
      Raise (LibraryError "IllegalCharacterError" (s +:+ " cannot be used in worksheets."))
  | None =>
      if index
      then Ok (Workbook [("Sheet1", (EmptyString :: columns df, indexed (rows df)))])
      else Ok (Workbook [("Sheet1", (columns df, rows df))])
  end.

End Pandas.

(** ** The loader: [read_file] *)

(** An upload: its file name and its bytes. *)
Record UploadedFile : Type := mkUpload {
  name : string;
  content : string
}.

Section loader.
(** [pd.read_csv] and [pd.read_excel]: the parsers of pandas, which
    either give a table or raise. *)
Variables read_csv read_excel : UploadedFile → result DataFrame.

Definition read_file (uploaded_file : UploadedFile) : result DataFrame :=
  try_except
    (if endswith (name uploaded_file) ".csv" then read_csv uploaded_file
     else if endswith (name uploaded_file) ".xls"
             || endswith (name uploaded_file) ".xlsx" then read_excel uploaded_file
     else Raise (ValueError "Unsupported file format"))
    (λ e, Raise (ValueError ("Error reading file: " +:+ str e))).
End loader.

(** ** The export encoder: [get_download_buffer] *)

Section encoder.
(** [df.to_csv(buffer, index=)] and [df.to_excel(buffer, index=)]: the
    writers of pandas, which fill the buffer or raise. *)
Variables to_csv to_excel : DataFrame → bool → result Pandas.Buffer.

Definition get_download_buffer (df : DataFrame) (file_format : string)
    : result (Pandas.Buffer * string) :=
  if decide (file_format = "csv") then
    buffer ← to_csv df false;
    Ok (buffer, "text/csv")
  else
    buffer ← to_excel df false;
    Ok (buffer, "application/vnd.openxmlformats-officedocument.spreadsheetml.sheet").
End encoder.

(** ** The merge engine: [merge_dataframes] *)

(** The statistics dictionary [merge_stats] as it is returned. *)
Record MergeStats : Type := mkStats {
  total_rows_original : nat;
  new_rows_per_file : gmap nat nat;
  missing_rows_per_file : gmap nat nat;
  total_rows_merged : nat
}.

(** What the join loop carries from one table to the next: the running
    result and the two per-file dictionaries of [merge_stats]. *)
Record Running : Type := mkRunning {
  result_df : DataFrame;
  new_rows : gmap nat nat;
  missing_rows : gmap nat nat
}.

(** The dictionary key [f"df{i}"]. *)
Definition df_key (i : nat) : string := "df" +:+ str_nat i.

(** [name.split('.')[0]]: the prefix that a renamed column gets. *)
Definition stem (name : string) : string := default EmptyString (split "." name !! 0).

(** What a Python [set] holds of a key column.  Cells that are equal
    are one element.  A null cell is another matter: a column without
    strings is held by pandas as numbers, its nulls are NaN, and every
    read of a NaN gives a float object of its own, which no other
    object equals; such a null is the element [NaN], marked with the
    column it was read from and its row.  In a column with strings
    the nulls are one shared object, the element [Key VNull]. *)
Inductive key_elem : Type :=
  | Key (v : value)
  | NaN (of_right : bool) (row : nat).

#[global] Instance key_elem_eq_dec : EqDecision key_elem.
Proof. solve_decision. Defined.

Definition key_elem_to_sum (e : key_elem) : value + bool * nat :=
  match e with
  | Key v => inl v
  | NaN of_right row => inr (of_right, row)
  end.

Definition key_elem_of_sum (x : value + bool * nat) : key_elem :=
  match x with
  | inl v => Key v
  | inr (of_right, row) => NaN of_right row
  end.

#[global] Instance key_elem_countable : Countable key_elem.
Proof.
  refine (inj_countable' key_elem_to_sum key_elem_of_sum _).
  by intros [].
Defined.

(** The column holds no string: pandas keeps it as numbers.  A column
    of nulls alone counts as numbers, as the parsers of pandas make
    it. *)
Definition is_numeric (cells : list value) : bool :=
  forallb (λ v, match v with VStr _ => false | _ => true end) cells.

(** The objects that iterating over the column gives. *)
Definition series_items (of_right : bool) (cells : list value) : list key_elem :=
  imap (λ row v, if decide (v = VNull)
                 then (if is_numeric cells then NaN of_right row else Key VNull)
                 else Key v) cells.

(** [set(column)], for the key column of the running result
    ([of_right = false]) or of the table joined to it. *)
Definition key_set (of_right : bool) (cells : list value) : gset key_elem :=
  list_to_set (series_items of_right cells).

Section engine.
(** [list(s)] for a set [s] of strings: Python fixes no order. *)
Variable set_list : gset string → list string.
(** [left.merge(right, left_on=, right_on=, how=)]. *)
Variable pd_merge : DataFrame → DataFrame → string → string → string → result DataFrame.

Section loops.
Variable merge_columns : gmap string string.
Variable selected_columns : gmap string (gset string).
Variable merge_type : string.

(** The dictionary comprehension [rename_dict]. *)
Definition rename_dict (name merge_col : string) (cols : list string) : gmap string string :=
  list_to_map ((λ col, (col, stem name +:+ "_" +:+ col))
                 <$> filter (λ col, col ≠ merge_col) cols).

(** The body of the first loop for table [i]: project, then rename. *)
Definition filter_df (i : nat) (df : DataFrame) (name : string) : result DataFrame :=
  merge_col ← dict_getitem merge_columns (df_key i);
  let selected_cols := default ∅ (selected_columns !! df_key i) in
  let cols_to_keep := set_list (selected_cols ∪ {[merge_col]}) in
  filtered_df ← Pandas.getitem_cols df cols_to_keep;
  Ok (Pandas.rename filtered_df (rename_dict name merge_col (columns filtered_df))).

(** [for i, (df, name) in enumerate(zip(dfs, df_names))], from index [i]. *)
Fixpoint filter_loop (i : nat) (zipped : list (DataFrame * string))
    : result (list DataFrame) :=
  match zipped with
  | [] => Ok []
  | (df, name) :: rest =>
      filtered_df ← filter_df i df name;
      filtered_dfs ← filter_loop (S i) rest;
      Ok (filtered_df :: filtered_dfs)
  end.

(** The guarded block of the second loop: count, join, drop.  The two
    counts go into the dictionaries before the join; a join that fails
    leaves the function, dictionaries and all. *)
Definition join_step (i : nat) (left_col right_col : string) (df : DataFrame)
    (st : Running) : result Running :=
  left_cells ← Pandas.getitem_col (result_df st) left_col;
  right_cells ← Pandas.getitem_col df right_col;
  let left_keys := key_set false left_cells in
  let right_keys := key_set true right_cells in
  let new := size (right_keys ∖ left_keys) in
  let missing := size (left_keys ∖ right_keys) in
  merged ← pd_merge (result_df st) df left_col right_col merge_type;
  result ← (if decide (left_col ≠ right_col) then Pandas.drop merged right_col
            else Ok merged);
  Ok (mkRunning result (<[i := new]> (new_rows st)) (<[i := missing]> (missing_rows st))).

(** The body of the second loop for table [i]: the two key lookups,
    then the block under [try]. *)
Definition merge_step (i : nat) (df : DataFrame) (st : Running) : result Running :=
  left_col ← dict_getitem merge_columns (df_key 0);
  right_col ← dict_getitem merge_columns (df_key i);
  try_except (join_step i left_col right_col df st)
    (λ e, Raise (ValueError ("Error merging DataFrames: " +:+ str e))).

(** [for i, df in enumerate(filtered_dfs[1:], 1)], from index [i]. *)
Fixpoint merge_loop (i : nat) (dfs : list DataFrame) (st : Running) : result Running :=
  match dfs with
  | [] => Ok st
  | df :: rest => st' ← merge_step i df st; merge_loop (S i) rest st'
  end.
End loops.

Definition merge_dataframes (dfs : list DataFrame) (merge_columns : gmap string string)
    (selected_columns : gmap string (gset string)) (df_names : list string)
    (merge_type : string) : result (DataFrame * MergeStats) :=
  if decide (length dfs < 2) then
    Raise (ValueError "At least two DataFrames are required for merging")
  else
    filtered_dfs ← filter_loop merge_columns selected_columns 0 (zip dfs df_names);
    result ← list_getitem filtered_dfs 0;
    let total := sum_list (len <$> dfs) in
    st ← merge_loop merge_columns merge_type 1 (List.skipn 1 filtered_dfs)
           (mkRunning result ∅ ∅);
    Ok (result_df st,
        mkStats total (new_rows st) (missing_rows st) (len (result_df st))).
End engine.

(** ** The error taxonomy of the spec, as the code raises it *)

(** Every failure the three functions signal themselves is a
    [ValueError]; the kinds of the spec differ in the message only. *)
Definition InsufficientInputError : exn :=
  ValueError "At least two DataFrames are required for merging".
Definition MergeError (cause : exn) : exn :=
  ValueError ("Error merging DataFrames: " +:+ str cause).
Definition ParseError (cause : exn) : exn :=
  ValueError ("Error reading file: " +:+ str cause).
Definition FormatError : exn := ValueError "Unsupported file format".

(** ** Notions the properties are stated with *)

(** The file name carries one of the extensions the loader reads. *)
Definition recognized (filename : string) : bool :=
  endswith filename ".csv" || endswith filename ".xls" || endswith filename ".xlsx".

(** The parser [read_file] hands an upload to, by its extension. *)
Definition parser_for (read_csv read_excel : UploadedFile → result DataFrame)
    (f : UploadedFile) : result DataFrame :=
  if endswith (name f) ".csv" then read_csv f else read_excel f.

(** The label without its trailing extension, in the spec's words: what
    comes before the last dot (all of it when there is none). *)
Definition strip_extension (label : string) : string :=
  match reverse (split "." label) with
  | _ :: (_ :: _) as front => String.concat "." (reverse front)
  | _ => label
  end.

(** How many distinct cells of [xs] do not occur in [ys], the null
    being one value like another: the count in the spec's words. *)
Definition distinct_absent (xs ys : list value) : nat :=
  length (filter (λ v, v ∉ ys) (remove_dups xs)).

(** The running result as the join loop has it when it comes to table
    [i]: the first projection joined with those of tables 1 to [i - 1]. *)
Definition running_before
    (pd_merge : DataFrame → DataFrame → string → string → string → result DataFrame)
    (merge_columns : gmap string string) (merge_type : string)
    (filtered_dfs : list DataFrame) (i : nat) : result Running :=
  first ← list_getitem filtered_dfs 0;
  merge_loop pd_merge merge_columns merge_type 1
    (take (i - 1) (List.skipn 1 filtered_dfs)) (mkRunning first ∅ ∅).

(** Two enumerations give one list for the columns kept of table [i]. *)
Definition agree_at (set_list set_list' : gset string → list string)
    (merge_columns : gmap string string) (selected_columns : gmap string (gset string))
    (i : nat) : Prop :=
  ∀ key, merge_columns !! df_key i = Some key →
    set_list (default ∅ (selected_columns !! df_key i) ∪ {[key]})
    = set_list' (default ∅ (selected_columns !! df_key i) ∪ {[key]}).

(** The statistics with another total of original rows. *)
Definition with_total (total : nat) (out : DataFrame * MergeStats) : DataFrame * MergeStats :=
  (out.1, mkStats total (new_rows_per_file out.2) (missing_rows_per_file out.2)
                  (total_rows_merged out.2)).

(** ** Worked inputs *)

(** The two tables of the end-to-end scenario of the spec. *)
Definition table_A : DataFrame :=
  mkDataFrame ["id"; "name"] [[VInt 1; VStr "a"]; [VInt 2; VStr "b"]].
Definition table_B : DataFrame :=
  mkDataFrame ["id"; "val"] [[VInt 2; VInt 10]; [VInt 3; VInt 20]].
Definition keys_AB : gmap string string := {[ "df0" := "id"; "df1" := "id" ]}.
Definition all_AB : gmap string (gset string) :=
  {[ "df0" := {[ "id"; "name" ]}; "df1" := {[ "id"; "val" ]} ]}.

(** A third table, with three rows. *)
Definition table_C : DataFrame :=
  mkDataFrame ["id"; "qty"] [[VInt 1; VInt 5]; [VInt 2; VInt 6]; [VInt 9; VInt 7]].

(** A table with one data column [X], keyed by [id]. *)
Definition table_X : DataFrame :=
  mkDataFrame ["id"; "X"] [[VInt 1; VInt 7]].

(** The selections and keys of the scenario as sets, and the
    enumeration that lists the columns kept of [table_A] as [la] and
    those of [table_B] as [lb]. *)
Definition cols_A : gset string := {[ "id"; "name" ]}.
Definition cols_B : gset string := {[ "id"; "val" ]}.
Definition enum_AB (la lb : list string) : gset string → list string :=
  λ s, if decide (s = cols_A) then la else lb.

(** The merged table and the statistics of the scenario. *)
Definition merged_AB : DataFrame :=
  mkDataFrame ["id"; "A_name"; "B_val"]
    [[VInt 1; VStr "a"; VNull]; [VInt 2; VStr "b"; VInt 10]; [VInt 3; VNull; VInt 20]].
Definition stats_AB : MergeStats := mkStats 4 {[ 1 := 1 ]} {[ 1 := 1 ]} 3.

(** Keys that name a column [missing], which [table_B] does not have. *)
Definition keys_missing : gmap string string := {[ "df0" := "id"; "df1" := "missing" ]}.
(** The key and selection for [table_X]. *)
Definition keys_X : gmap string string := {[ "df0" := "id" ]}.
Definition all_X : gmap string (gset string) := {[ "df0" := {[ "id"; "X" ]} ]}.

(** The projection of [table_X] under the label orders.csv, and the
    projection of [table_A] when nothing is selected. *)
Definition orders_X : DataFrame := mkDataFrame ["id"; "orders_X"] [[VInt 1; VInt 7]].

(** Three tables without a null, the second keyed by a column of
    another name than the first and sharing no key with it. *)
Definition table_K : DataFrame :=
  mkDataFrame ["key"; "val"] [[VInt 3; VInt 10]; [VInt 4; VInt 20]].
Definition keys_AKC : gmap string string :=
  {[ "df0" := "id"; "df1" := "key"; "df2" := "id" ]}.
Definition all_AKC : gmap string (gset string) :=
  {[ "df0" := {[ "id"; "name" ]}; "df1" := {[ "key"; "val" ]};
     "df2" := {[ "id"; "qty" ]} ]}.
Definition projected_C : DataFrame :=
  mkDataFrame ["id"; "C_qty"] [[VInt 1; VInt 5]; [VInt 2; VInt 6]; [VInt 9; VInt 7]].

(** A table with a control character in a cell. *)
Definition table_bell : DataFrame :=
  mkDataFrame ["id"; "note"] [[VInt 1; VStr (String "007" "bell")]].

(** What pandas raises on an upload without bytes. *)
Definition empty_data : exn := LibraryError "EmptyDataError" "No columns to parse from file".
(** A parser at an upload it cannot decode. *)
Definition rejects (cause : exn) : UploadedFile → result DataFrame := λ _, Raise cause.

(** ** The caller: the stages of [main] around the three functions *)

Section caller.
Variables read_csv read_excel : UploadedFile → result DataFrame.

(** The loop of [main] that reads the uploads: every file goes through
    [read_file], its table is appended to [dfs] and its name to
    [df_names]; the first file that fails ends the loop. *)
Fixpoint load_uploads (uploaded_files : list UploadedFile) (dfs : list DataFrame)
    (df_names : list string) : result (list DataFrame * list string) :=
  match uploaded_files with
  | [] => Ok (dfs, df_names)
  | file :: rest =>
      df ← read_file read_csv read_excel file;
      load_uploads rest (dfs ++ [df]) (df_names ++ [name file])
  end.
End caller.

(** [d[i]] on a dictionary with integer keys. *)
Definition stat_getitem (d : gmap nat nat) (i : nat) : result nat :=
  match d !! i with
  | Some v => Ok v
  | None => Raise (KeyErrorInt i)
  end.

(** The loop of [main] that shows the row matching statistics: for
    every index of [indices] it reads the label of the file, then the
    two per-file dictionaries, in the order the message names them. *)
Fixpoint row_matching_statistics (merge_stats : MergeStats) (df_names : list string)
    (indices : list nat) : result (list (nat * string * nat * nat)) :=
  match indices with
  | [] => Ok []
  | i :: rest =>
      label ← list_getitem df_names i;
      new ← stat_getitem (new_rows_per_file merge_stats) i;
      missing ← stat_getitem (missing_rows_per_file merge_stats) i;
      lines ← row_matching_statistics merge_stats df_names rest;
      Ok ((i, label, new, missing) :: lines)
  end.

(** [range(1, n)]. *)
Definition range_from_1 (n : nat) : list nat := seq 1 (n - 1).

(** What the widgets of [main] let through: for every table the key
    is one of its columns (the select box offers [df.columns]) and the
    selection is a set of its columns (the multi-select offers the
    same list). *)
Definition widget_choice (dfs : list DataFrame) (merge_columns : gmap string string)
    (selected_columns : gmap string (gset string)) : Prop :=
  ∀ i df, dfs !! i = Some df →
    (∃ key, merge_columns !! df_key i = Some key ∧ key ∈ columns df)
    ∧ (∃ selected, selected_columns !! df_key i = Some selected
                   ∧ ∀ c, c ∈ selected → c ∈ columns df).

(** A parser that decodes every upload to [df]. *)
Definition decodes (df : DataFrame) : UploadedFile → result DataFrame := λ _, Ok df.

(** Two uploads and a third with an extension the loader does not read. *)
Definition upload_A : UploadedFile := mkUpload "A.csv" "id,name".
Definition upload_B : UploadedFile := mkUpload "B.xlsx" "id,val".
Definition upload_notes : UploadedFile := mkUpload "notes.txt" "id,name".

(** The projections of [table_A] and [table_B] with every column
    selected, under the order of [elements]. *)
Definition projected_A : DataFrame :=
  mkDataFrame ["id"; "A_name"] [[VInt 1; VStr "a"]; [VInt 2; VStr "b"]].
Definition projected_B : DataFrame :=
  mkDataFrame ["id"; "B_val"] [[VInt 2; VInt 10]; [VInt 3; VInt 20]].

(** A table keyed by a column of another name, its projection, and the
    running result of joining it to [projected_A]. *)
Definition keys_AD : gmap string string := {[ "df0" := "id"; "df1" := "key" ]}.
Definition projected_D : DataFrame := mkDataFrame ["key"; "D_val"] [[VInt 2; VInt 10]].
Definition joined_AD : DataFrame :=
  mkDataFrame ["id"; "A_name"; "key"; "D_val"]
    [[VInt 1; VStr "a"; VNull; VNull]; [VInt 2; VStr "b"; VInt 2; VInt 10]].
Definition running_AD : Running :=
  mkRunning (mkDataFrame ["id"; "A_name"; "D_val"]
               [[VInt 1; VStr "a"; VNull]; [VInt 2; VStr "b"; VInt 10]])
            {[ 1 := 0 ]} {[ 1 := 1 ]}.

(** Two tables with the column X selected, for labels of one stem. *)
Definition all_XX : gmap string (gset string) :=
  {[ "df0" := {[ "id"; "X" ]}; "df1" := {[ "id"; "X" ]} ]}.
Definition data_X : DataFrame := mkDataFrame ["id"; "data_X"] [[VInt 1; VInt 7]].

(** The keys of the scenario with an entry more, for a table that is
    not there. *)
Definition keys_AB_more : gmap string string := <[ "df7" := "nowhere" ]> keys_AB.

(** The statistics of merging [table_A], [table_B] and [table_C] under
    two labels. *)
Definition stats_ABC : MergeStats := mkStats 7 {[ 1 := 1 ]} {[ 1 := 1 ]} 3.

(** * Properties *)

(** ** The export encoder *)

(** C4 (as the code has it): whatever the format argument, the encoder
    does not refuse it.  The format [csv] goes to the CSV writer and
    comes back with the MIME type text/csv; every other format
    argument goes to the workbook writer and comes back with the
    spreadsheet MIME type; both writers are called with the index
    off.  The encoder fails only when the writer it called raises,
    and then with the writer's own exception.  What the writers of
    pandas leave in the buffer on success is the table as it is, in
    one sheet for a workbook, without a column of row numbers. *)
Theorem get_download_buffer_by_format
    (to_csv to_excel : DataFrame → bool → result Pandas.Buffer)
    (df : DataFrame) (file_format : string) :
  get_download_buffer to_csv to_excel df file_format =
    (if decide (file_format = "csv")
     then (λ buffer, (buffer, "text/csv")) <$> to_csv df false
     else (λ buffer,
             (buffer, "application/vnd.openxmlformats-officedocument.spreadsheetml.sheet"))
            <$> to_excel df false)
  ∧ (∀ e, get_download_buffer to_csv to_excel df file_format = Raise e →
       (file_format = "csv" ∧ to_csv df false = Raise e)
       ∨ (file_format ≠ "csv" ∧ to_excel df false = Raise e))
  ∧ (∀ buffer mime,
       get_download_buffer Pandas.to_csv Pandas.to_excel df file_format
         = Ok (buffer, mime) →
       (file_format = "csv"
        ∧ buffer = Pandas.CsvText (columns df) (rows df)
        ∧ mime = "text/csv")
       ∨ (file_format ≠ "csv"
          ∧ buffer = Pandas.Workbook [("Sheet1", (columns df, rows df))]
          ∧ mime = "application/vnd.openxmlformats-officedocument.spreadsheetml.sheet")).
Proof.
  unfold get_download_buffer. split_and!.
  - case_decide; [by destruct (to_csv df false) | by destruct (to_excel df false)].
  - intros e. case_decide as Hfmt.
    + destruct (to_csv df false) as [buffer|e'] eqn:E; simpl; [done|].
      intros [= ->]. by left.
    + destruct (to_excel df false) as [buffer|e'] eqn:E; simpl; [done|].
      intros [= ->]. by right.
  - intros buffer mime. case_decide as Hfmt; simpl.
    + intros [= <- <-]. by left.
    + unfold Pandas.to_excel. destruct (List.find _ _); simpl; [done|].
      intros [= <- <-]. by right.
Qed.

(** C4, refuted as stated: a format that is neither csv nor a
    spreadsheet format is not refused, it is written as a workbook. *)
Lemma get_download_buffer_pdf :
  get_download_buffer Pandas.to_csv Pandas.to_excel table_A "pdf" =
    Ok (Pandas.Workbook [("Sheet1", (["id"; "name"],
                                     [[VInt 1; VStr "a"]; [VInt 2; VStr "b"]]))],
        "application/vnd.openxmlformats-officedocument.spreadsheetml.sheet")
  ∧ ∀ e, get_download_buffer Pandas.to_csv Pandas.to_excel table_A "pdf" ≠ Raise e.
Proof.
  split; [reflexivity | intros e; discriminate].
Qed.

(** A text with a control character is refused by the workbook writer,
    and the encoder lets the exception through as it is. *)
Lemma get_download_buffer_control_character :
  get_download_buffer Pandas.to_csv Pandas.to_excel table_bell "xlsx"
  = Raise (LibraryError "IllegalCharacterError"
             (String "007" "bell" +:+ " cannot be used in worksheets.")).
Proof. reflexivity. Qed.

(** ** The loader *)

Section loader_properties.
Variables read_csv read_excel : UploadedFile → result DataFrame.

Lemma read_file_unrecognized (f : UploadedFile) :
  recognized (name f) = false →
  read_file read_csv read_excel f = Raise (ParseError FormatError).
Proof.
  unfold recognized, read_file. intros H.
  apply orb_false_elim in H as [H Hxlsx].
  apply orb_false_elim in H as [Hcsv Hxls].
  by rewrite Hcsv, Hxls, Hxlsx.
Qed.

Lemma read_file_parser_raises (f : UploadedFile) (cause : exn) :
  recognized (name f) = true →
  parser_for read_csv read_excel f = Raise cause →
  read_file read_csv read_excel f = Raise (ParseError cause).
Proof.
  unfold recognized, read_file, parser_for. intros Hrec Hparse.
  destruct (endswith (name f) ".csv"); simpl in *.
  - by rewrite Hparse.
  - rewrite Hrec. by rewrite Hparse.
Qed.

Lemma read_file_parser_returns (f : UploadedFile) (df : DataFrame) :
  recognized (name f) = true →
  parser_for read_csv read_excel f = Ok df →
  read_file read_csv read_excel f = Ok df.
Proof.
  unfold recognized, read_file, parser_for. intros Hrec Hparse.
  destruct (endswith (name f) ".csv"); simpl in *.
  - by rewrite Hparse.
  - rewrite Hrec. by rewrite Hparse.
Qed.

(** C5 (as the code has it): an upload whose extension is none of
    .csv, .xls, .xlsx fails with the ValueError "Error reading file:
    Unsupported file format"; an upload that its parser cannot decode
    fails with the ValueError "Error reading file: " followed by the
    text of the cause.  The two are one kind of error, a ValueError
    with one prefix, and differ only in the text after it. *)
Theorem read_file_failures (f g : UploadedFile) (cause : exn) :
  recognized (name f) = false →
  recognized (name g) = true →
  parser_for read_csv read_excel g = Raise cause →
  read_file read_csv read_excel f
    = Raise (ValueError "Error reading file: Unsupported file format")
  ∧ read_file read_csv read_excel g
    = Raise (ValueError ("Error reading file: " +:+ str cause))
  ∧ class_name (ParseError FormatError) = class_name (ParseError cause).
Proof.
  intros Hf Hg Hparse. split_and!.
  - by rewrite read_file_unrecognized.
  - by rewrite (read_file_parser_raises g cause).
  - reflexivity.
Qed.
End loader_properties.

(** C5, refuted as stated: a text file by name and an empty CSV upload
    fail with errors of the same class, and the first is itself
    reported in the form of a parse error around a cause. *)
Lemma read_file_failures_same_kind :
  let bad_name := mkUpload "notes.txt" "id,name" in
  let bad_bytes := mkUpload "empty.csv" "" in
  ∃ e1 e2,
    read_file (rejects empty_data) (rejects empty_data) bad_name = Raise e1
    ∧ read_file (rejects empty_data) (rejects empty_data) bad_bytes = Raise e2
    ∧ class_name e1 = class_name e2
    ∧ e1 = ParseError FormatError
    ∧ e2 = ParseError empty_data.
Proof.
  simpl. eexists _, _. split_and!; reflexivity.
Qed.

Lemma read_file_failures_witness :
  read_file (rejects empty_data) (rejects empty_data) (mkUpload "notes.txt" "id,name")
    = Raise (ValueError "Error reading file: Unsupported file format")
  ∧ read_file (rejects empty_data) (rejects empty_data) (mkUpload "empty.csv" "")
    = Raise (ValueError ("Error reading file: " +:+ str empty_data))
  ∧ class_name (ParseError FormatError) = class_name (ParseError empty_data).
Proof.
  apply (read_file_failures (rejects empty_data) (rejects empty_data)
           (mkUpload "notes.txt" "id,name") (mkUpload "empty.csv" "") empty_data);
    reflexivity.
Defined.

(** ** Python strings and pandas lookups *)

Lemma split_cons (sep : ascii) (s : string) : ∃ w ws, split sep s = w :: ws.
Proof.
  induction s as [|c s' (w & ws & IH)]; simpl; [by eauto|].
  destruct (Ascii.eqb c sep); [by eauto|]. rewrite IH. by eauto.
Qed.

(** [name.split('.')[0]] is the part of [name] before its first dot:
    it holds no dot, and [name] is it alone or it, a dot and a rest. *)
Lemma stem_first_dot (name : string) :
  ("."%char ∉ list_ascii_of_string (stem name))
  ∧ (name = stem name ∨ ∃ rest, name = stem name +:+ "." +:+ rest).
Proof.
  unfold stem. induction name as [|c s' [IHdot IH]]; simpl.
  - split; [apply not_elem_of_nil | by left].
  - destruct (Ascii.eqb_spec c ".") as [->|Hc]; simpl.
    + split; [apply not_elem_of_nil | right; by exists s'].
    + destruct (split_cons "." s') as (w & ws & Hs). rewrite Hs in *. simpl in *.
      split.
      * intros [?|?]%elem_of_cons; [congruence | done].
      * destruct IH as [IH | (rest & IH)]; [left | right; exists rest]; by rewrite IH at 1.
Qed.

Lemma col_index_Some (c : string) (cols : list string) (j : nat) :
  col_index c cols = Some j → cols !! j = Some c.
Proof.
  revert j. induction cols as [|c' cols IH]; intros j; simpl; [done|].
  case_decide as Hc; [by intros [= <-]; subst|].
  destruct (col_index c cols) as [k|]; simpl; [|done].
  intros [= <-]. by apply IH.
Qed.

Lemma col_index_None (c : string) (cols : list string) :
  col_index c cols = None ↔ c ∉ cols.
Proof.
  induction cols as [|c' cols IH]; simpl.
  - split; [intros _; apply not_elem_of_nil | done].
  - case_decide as Hc.
    + subst. split; [done | intros []; left].
    + rewrite not_elem_of_cons, <- IH.
      destruct (col_index c cols); simpl; split; try done.
      by intros [_ ?].
Qed.

Lemma col_index_elem (c : string) (cols : list string) :
  c ∈ cols → ∃ j, col_index c cols = Some j.
Proof.
  intros Hin. destruct (col_index c cols) as [j|] eqn:E; [by eauto|].
  by apply col_index_None in E.
Qed.

Lemma col_indices_Ok (have cols : list string) (js : list nat) :
  Pandas.col_indices have cols = Ok js →
  Forall2 (λ c j, col_index c have = Some j) cols js.
Proof.
  revert js. induction cols as [|c cols IH]; intros js; simpl.
  - intros [= <-]. constructor.
  - destruct (col_index c have) as [j|] eqn:E; [|done].
    destruct (Pandas.col_indices have cols) as [js'|e]; simpl; [|done].
    intros [= <-]. constructor; [done | by apply IH].
Qed.

Lemma col_indices_Raise (have cols : list string) (e : exn) :
  Pandas.col_indices have cols = Raise e →
  ∃ c, e = KeyError c ∧ c ∈ cols ∧ c ∉ have.
Proof.
  induction cols as [|c cols IH]; simpl; [done|].
  destruct (col_index c have) as [j|] eqn:E.
  - destruct (Pandas.col_indices have cols) as [js'|e']; simpl; [done|].
    intros [= ->]. destruct IH as (c' & -> & Hin & Hout); [done|].
    exists c'. split_and!; [done | by right | done].
  - intros [= <-]. exists c. split_and!; [done | by left | by apply col_index_None].
Qed.

Lemma col_indices_total (have cols : list string) :
  (∀ c, c ∈ cols → c ∈ have) → ∃ js, Pandas.col_indices have cols = Ok js.
Proof.
  intros Hsub. destruct (Pandas.col_indices have cols) as [js|e] eqn:E; [by eauto|].
  apply col_indices_Raise in E as (c & _ & Hin & Hout). by apply Hsub in Hin.
Qed.

(** ** The merge engine *)

Lemma bind_Ok {A B} (m : result A) (f : A → result B) (b : B) :
  m ≫= f = Ok b ↔ ∃ a, m = Ok a ∧ f a = Ok b.
Proof.
  destruct m as [a|e]; simpl; split.
  - intros H. by exists a.
  - by intros (a' & [= ->] & H).
  - discriminate.
  - by intros (a' & [=] & _).
Qed.

Lemma bind_Raise {A B} (m : result A) (f : A → result B) (e : exn) :
  m ≫= f = Raise e ↔ m = Raise e ∨ ∃ a, m = Ok a ∧ f a = Raise e.
Proof.
  destruct m as [a|e']; simpl; split.
  - intros H. right. by exists a.
  - intros [[=] | (a' & [= ->] & H)]. done.
  - intros [= ->]. by left.
  - intros [[= ->] | (a' & [=] & _)]. done.
Qed.

(** Takes a hypothesis [m ≫= f = Ok b] apart, at every depth. *)
Ltac inv_ok :=
  repeat match goal with
  | H : _ ≫= _ = Ok _ |- _ =>
      let a := fresh "a" in let Ha := fresh "H" a in
      apply bind_Ok in H as (a & Ha & H); cbv beta in H
  end.

Section engine_properties.
Variable set_list : gset string → list string.
Variable pd_merge : DataFrame → DataFrame → string → string → string → result DataFrame.
Variable merge_columns : gmap string string.
Variable selected_columns : gmap string (gset string).
Variable merge_type : string.

(** Whatever its order, [list(s)] holds the members of [s], each once. *)
Hypothesis set_list_enumerates : ∀ s, set_list s ≡ₚ elements s.

(** A merge that succeeds went through every stage: the guard, the
    projection of the labelled tables, and the join loop from the first
    projection on. *)
Lemma merge_dataframes_Ok (dfs : list DataFrame) (df_names : list string)
    (merged : DataFrame) (stats : MergeStats) :
  merge_dataframes set_list pd_merge dfs merge_columns selected_columns df_names merge_type
    = Ok (merged, stats) →
  2 ≤ length dfs
  ∧ ∃ filtered first st,
      filter_loop set_list merge_columns selected_columns 0 (zip dfs df_names) = Ok filtered
      ∧ filtered = first :: List.skipn 1 filtered
      ∧ merge_loop pd_merge merge_columns merge_type 1 (List.skipn 1 filtered)
          (mkRunning first ∅ ∅) = Ok st
      ∧ merged = result_df st
      ∧ stats = mkStats (sum_list (len <$> dfs)) (new_rows st) (missing_rows st)
                  (len (result_df st)).
Proof.
  unfold merge_dataframes. case_decide as Hlen; [discriminate|].
  intros Hm. inv_ok. injection Hm as <- <-. split; [lia|].
  exists a, a0, a1. split_and!; try done.
  destruct a as [|first rest]; [discriminate|]. by injection Ha0 as <-.
Qed.

(** C7: with fewer than two tables, one or none, the merge fails at
    once with the InsufficientInputError of the code, whatever the
    labels, keys, selections, mode and join primitive are: nothing is
    projected or joined. *)
Theorem merge_needs_two_tables (dfs : list DataFrame) (df_names : list string) :
  length dfs < 2 →
  merge_dataframes set_list pd_merge dfs merge_columns selected_columns df_names merge_type
    = Raise InsufficientInputError.
Proof.
  intros Hlen. unfold merge_dataframes. by rewrite decide_True.
Qed.

(** C8: when a merge succeeds, [total_rows_original] is the sum of
    the row counts of all the tables as they were passed in, and
    [total_rows_merged] is the row count of the table returned. *)
Theorem merge_totals (dfs : list DataFrame) (df_names : list string)
    (merged : DataFrame) (stats : MergeStats) :
  merge_dataframes set_list pd_merge dfs merge_columns selected_columns df_names merge_type
    = Ok (merged, stats) →
  2 ≤ length dfs
  ∧ total_rows_original stats = sum_list (len <$> dfs)
  ∧ total_rows_merged stats = len merged.
Proof.
  intros (Hlen & filtered & first & st & _ & _ & _ & -> & ->)%merge_dataframes_Ok.
  by split_and!.
Qed.

(** *** Projection and renaming *)

Lemma rename_dict_lookup (name key : string) (cols : list string) (c : string) :
  rename_dict name key cols !! c =
    if decide (c ∈ cols ∧ c ≠ key) then Some (stem name +:+ "_" +:+ c) else None.
Proof.
  unfold rename_dict. induction cols as [|c' cols IH].
  - rewrite decide_False; [done|]. intros [H _]. by inversion H.
  - rewrite filter_cons. destruct (decide (c' ≠ key)) as [Hk|Hk].
    + rewrite fmap_cons. cbn [list_to_map foldr uncurry fst snd].
      destruct (decide (c' = c)) as [->|Hc].
      * rewrite lookup_insert_eq. rewrite decide_True; [done|]. split; [left | done].
      * rewrite lookup_insert_ne by done. rewrite IH.
        apply decide_ext. rewrite elem_of_cons. intuition congruence.
    + rewrite IH. apply decide_ext. rewrite elem_of_cons.
      apply dec_stable in Hk. intuition congruence.
Qed.

(** What the first loop makes of one table: the columns kept are the
    enumeration of the selection with the key added, every label but
    the key behind the stem of the table's name, over the cells of the
    table at those columns. *)
Lemma filter_df_Ok (i : nat) (df : DataFrame) (name : string) (p : DataFrame) :
  filter_df set_list merge_columns selected_columns i df name = Ok p →
  ∃ key js,
    merge_columns !! df_key i = Some key
    ∧ let cols := set_list (default ∅ (selected_columns !! df_key i) ∪ {[key]}) in
      Forall2 (λ c j, col_index c (columns df) = Some j) cols js
      ∧ columns p = (λ c, if decide (c = key) then c else stem name +:+ "_" +:+ c) <$> cols
      ∧ rows p = (λ r, cell r <$> js) <$> rows df.
Proof.
  unfold filter_df, dict_getitem. intros H.
  destruct (merge_columns !! df_key i) as [key|] eqn:Hkey; [|done]. simpl in H.
  unfold Pandas.getitem_cols in H. inv_ok. simplify_eq. simpl.
  exists key, a0. split_and!; [done | by apply col_indices_Ok | | done].
  apply list_fmap_ext. intros k c Hc. apply list_elem_of_lookup_2 in Hc.
  rewrite rename_dict_lookup. destruct (decide (c = key)) as [->|Hne].
  - by rewrite decide_False by (by intros [_ ?]).
  - by rewrite decide_True.
Qed.

Lemma filter_df_Raise (i : nat) (df : DataFrame) (name : string) (e : exn) :
  filter_df set_list merge_columns selected_columns i df name = Raise e →
  ∃ label, e = KeyError label.
Proof.
  unfold filter_df, dict_getitem. intros H.
  destruct (merge_columns !! df_key i) as [key|] eqn:Hkey; simpl in H.
  - apply bind_Raise in H as [H | (a & _ & [=])].
    unfold Pandas.getitem_cols in H. apply bind_Raise in H as [H | (a & _ & [=])].
    apply col_indices_Raise in H as (c & -> & _). by eauto.
  - injection H as <-. by eauto.
Qed.


(** C2 (as the code has it): in the projection of a table every
    column but the join key is renamed to the stem of the table's
    label, an underscore and the original name, and the key keeps its
    name.  The stem is the part of the label before its first dot (the
    whole label when it has none), so "orders.csv" gives "orders". *)
Theorem projection_renames_by_stem (i : nat) (df : DataFrame) (name : string)
    (p : DataFrame) :
  filter_df set_list merge_columns selected_columns i df name = Ok p →
  ∃ key,
    merge_columns !! df_key i = Some key
    ∧ columns p =
        (λ c, if decide (c = key) then key else stem name +:+ "_" +:+ c)
          <$> set_list (default ∅ (selected_columns !! df_key i) ∪ {[key]})
    ∧ ("."%char ∉ list_ascii_of_string (stem name))
    ∧ (name = stem name ∨ ∃ rest, name = stem name +:+ "." +:+ rest)
    ∧ stem "orders.csv" = "orders".
Proof.
  intros (key & js & Hkey & _ & Hcols & _)%filter_df_Ok.
  exists key. destruct (stem_first_dot name) as [Hdot Hsplit].
  split_and!; try done.
  rewrite Hcols. apply list_fmap_ext. intros k c _. by case_decide; subst.
Qed.




(** The projection is built whenever the table has its key column and
    the columns selected from it. *)
Lemma filter_df_total (i : nat) (df : DataFrame) (name key : string) :
  merge_columns !! df_key i = Some key →
  key ∈ columns df →
  (∀ c, c ∈ default ∅ (selected_columns !! df_key i) → c ∈ columns df) →
  ∃ p, filter_df set_list merge_columns selected_columns i df name = Ok p.
Proof.
  intros Hkey Hin Hsel. unfold filter_df, dict_getitem. rewrite Hkey. simpl.
  unfold Pandas.getitem_cols.
  destruct (col_indices_total (columns df)
              (set_list (default ∅ (selected_columns !! df_key i) ∪ {[key]}))) as [js ->].
  - intros c. rewrite set_list_enumerates, elem_of_elements, elem_of_union, elem_of_singleton.
    intros [?| ->]; [by apply Hsel | done].
  - simpl. by eauto.
Qed.



(** *** The two loops *)

Lemma filter_loop_Ok (i : nat) (zipped : list (DataFrame * string))
    (filtered : list DataFrame) :
  filter_loop set_list merge_columns selected_columns i zipped = Ok filtered →
  length filtered = length zipped
  ∧ ∀ n df name, zipped !! n = Some (df, name) →
      ∃ p, filtered !! n = Some p
           ∧ filter_df set_list merge_columns selected_columns (i + n) df name = Ok p.
Proof.
  revert i filtered. induction zipped as [|[df0 name0] rest IH]; intros i filtered; simpl.
  - intros [= <-]. split; [done | by intros n df name; rewrite lookup_nil].
  - intros H. inv_ok. injection H as <-.
    destruct (IH _ _ Ha0) as [Hlen Hall]. split; [by simpl; rewrite Hlen|].
    intros [|n] df name; simpl.
    + intros [= <- <-]. exists a. by rewrite Nat.add_0_r.
    + intros Hn. destruct (Hall _ _ _ Hn) as (p & Hp & Hf). exists p.
      by rewrite Nat.add_succ_r.
Qed.

Lemma filter_loop_Raise (i : nat) (zipped : list (DataFrame * string)) (e : exn) :
  filter_loop set_list merge_columns selected_columns i zipped = Raise e →
  ∃ label, e = KeyError label.
Proof.
  revert i. induction zipped as [|[df0 name0] rest IH]; intros i; simpl; [done|].
  intros [H | (p & _ & H)]%bind_Raise; [by eapply filter_df_Raise|].
  apply bind_Raise in H as [H | (ps & _ & [=])]. by eapply IH.
Qed.

Lemma zip_take_labels (dfs : list DataFrame) (names : list string) :
  zip (take (length names) dfs) names = zip dfs names.
Proof.
  revert names. induction dfs as [|df dfs IH]; intros [|name names]; simpl; try done.
  by rewrite IH.
Qed.

(** One pass of the join loop that succeeds: both key columns were
    found, and the two counts of the pass were recorded under [i]. *)
Lemma merge_step_Ok (i : nat) (df : DataFrame) (st st' : Running) :
  merge_step pd_merge merge_columns merge_type i df st = Ok st' →
  ∃ left_col right_col left_cells right_cells,
    merge_columns !! df_key 0 = Some left_col
    ∧ merge_columns !! df_key i = Some right_col
    ∧ Pandas.getitem_col (result_df st) left_col = Ok left_cells
    ∧ Pandas.getitem_col df right_col = Ok right_cells
    ∧ new_rows st'
      = <[i := size (key_set true right_cells ∖ key_set false left_cells)]> (new_rows st)
    ∧ missing_rows st'
      = <[i := size (key_set false left_cells ∖ key_set true right_cells)]>
          (missing_rows st).
Proof.
  unfold merge_step, dict_getitem. intros H.
  destruct (merge_columns !! df_key 0) as [left_col|]; [|done].
  destruct (merge_columns !! df_key i) as [right_col|]; [|done]. simpl in H.
  destruct (join_step pd_merge merge_type i left_col right_col df st) as [st1|e] eqn:E;
    [|done].
  simpl in H. injection H as <-. unfold join_step in E. inv_ok. injection E as <-.
  by exists left_col, right_col, a, a0.
Qed.

(** A pass of the join loop fails with a [MergeError] around the cause
    when the two keys are in [merge_columns]. *)
Lemma merge_step_Raise (i : nat) (df : DataFrame) (st : Running) (e : exn) :
  is_Some (merge_columns !! df_key 0) →
  is_Some (merge_columns !! df_key i) →
  merge_step pd_merge merge_columns merge_type i df st = Raise e →
  ∃ cause, e = MergeError cause.
Proof.
  unfold merge_step, dict_getitem. intros [left_col ->] [right_col ->]. simpl.
  destruct (join_step pd_merge merge_type i left_col right_col df st) as [st1|cause];
    simpl; [done|].
  intros [= <-]. by exists cause.
Qed.

Lemma merge_loop_app (i : nat) (dfs1 dfs2 : list DataFrame) (st : Running) :
  merge_loop pd_merge merge_columns merge_type i (dfs1 ++ dfs2) st =
    st1 ← merge_loop pd_merge merge_columns merge_type i dfs1 st;
    merge_loop pd_merge merge_columns merge_type (i + length dfs1) dfs2 st1.
Proof.
  revert i st. induction dfs1 as [|df dfs1 IH]; intros i st; simpl.
  - by rewrite Nat.add_0_r.
  - destruct (merge_step pd_merge merge_columns merge_type i df st) as [st1|e]; simpl;
      [|done].
    by rewrite IH, Nat.add_succ_r.
Qed.

(** The loop from index [i] over [dfs] writes the statistics of the
    indices [i] to [i + length dfs - 1] and no others. *)
Lemma merge_loop_outside (i : nat) (dfs : list DataFrame) (st st' : Running) (n : nat) :
  merge_loop pd_merge merge_columns merge_type i dfs st = Ok st' →
  n < i ∨ i + length dfs ≤ n →
  new_rows st' !! n = new_rows st !! n
  ∧ missing_rows st' !! n = missing_rows st !! n.
Proof.
  revert i st. induction dfs as [|df dfs IH]; intros i st; simpl.
  - by intros [= <-].
  - intros H Hn. inv_ok.
    destruct (IH _ _ H) as [Hnew Hmiss]; [lia|].
    apply merge_step_Ok in Ha as (lc & rc & ls & rs & _ & _ & _ & _ & Hn' & Hm').
    rewrite Hnew, Hmiss, Hn', Hm'.
    by rewrite !lookup_insert_ne by lia.
Qed.

Lemma merge_loop_Raise (i : nat) (dfs : list DataFrame) (st : Running) (e : exn) :
  is_Some (merge_columns !! df_key 0) →
  (∀ n, n < length dfs → is_Some (merge_columns !! df_key (i + n))) →
  merge_loop pd_merge merge_columns merge_type i dfs st = Raise e →
  ∃ cause, e = MergeError cause.
Proof.
  intros H0. revert i st. induction dfs as [|df dfs IH]; intros i st Hkeys; simpl; [done|].
  intros [H | (st1 & _ & H)]%bind_Raise.
  - eapply merge_step_Raise; [done | | done].
    specialize (Hkeys 0). rewrite Nat.add_0_r in Hkeys. apply Hkeys. simpl. lia.
  - eapply IH; [|done]. intros n Hn. specialize (Hkeys (S n)).
    rewrite Nat.add_succ_r in Hkeys. apply Hkeys. simpl. lia.
Qed.


(** *** Statistics of the join steps *)

(** The statistics of the position [i + n] after a whole loop are those
    recorded by the pass over its [n]-th table, from the running result
    that the passes before it left. *)
Lemma merge_loop_step_stats (i n : nat) (dfs : list DataFrame) (df : DataFrame)
    (st st' : Running) :
  merge_loop pd_merge merge_columns merge_type i dfs st = Ok st' →
  dfs !! n = Some df →
  ∃ running left_col right_col left_cells right_cells,
    merge_loop pd_merge merge_columns merge_type i (take n dfs) st = Ok running
    ∧ merge_columns !! df_key 0 = Some left_col
    ∧ merge_columns !! df_key (i + n) = Some right_col
    ∧ Pandas.getitem_col (result_df running) left_col = Ok left_cells
    ∧ Pandas.getitem_col df right_col = Ok right_cells
    ∧ new_rows st' !! (i + n)
      = Some (size (key_set true right_cells ∖ key_set false left_cells))
    ∧ missing_rows st' !! (i + n)
      = Some (size (key_set false left_cells ∖ key_set true right_cells)).
Proof.
  intros Hloop Hn.
  rewrite <- (take_drop_middle _ _ _ Hn), merge_loop_app in Hloop.
  apply bind_Ok in Hloop as (running & Hrun & Hloop). simpl in Hloop.
  apply bind_Ok in Hloop as (st1 & Hstep & Hrest).
  rewrite length_take_le in Hstep, Hrest by (apply lookup_lt_Some in Hn; lia).
  destruct (merge_loop_outside _ _ _ _ (i + n) Hrest) as [Hnew Hmiss]; [lia|].
  apply merge_step_Ok in Hstep
    as (lc & rc & ls & rs & Hlc & Hrc & Hls & Hrs & Hn' & Hm').
  exists running, lc, rc, ls, rs.
  rewrite Hnew, Hmiss, Hn', Hm', !lookup_insert_eq. by split_and!.
Qed.

(** *** Failures *)

Lemma filter_loop_keys (zipped : list (DataFrame * string)) (filtered : list DataFrame)
    (n : nat) :
  filter_loop set_list merge_columns selected_columns 0 zipped = Ok filtered →
  n < length filtered →
  is_Some (merge_columns !! df_key n).
Proof.
  intros [Hlen Hall]%filter_loop_Ok Hn. rewrite Hlen in Hn.
  destruct (lookup_lt_is_Some_2 _ _ Hn) as [[df name] Hz].
  destruct (Hall _ _ _ Hz) as (p & _ & Hp).
  apply filter_df_Ok in Hp as (key & _ & Hkey & _). by exists key.
Qed.



(** *** Tables without a label *)

(** C10 (as the code has it): when the list of labels is not empty
    and shorter than the list of tables, the tables past the labels
    are neither projected nor joined: with two labels or more the
    merge gives what the merge of the labelled tables alone gives, and
    with one label it gives the projection of the first table; the
    per-file statistics have no entry at the positions past the
    labels; only [total_rows_original] differs, being the row count of
    all the tables, the unlabelled ones too. *)
Theorem unlabelled_tables_ignored (dfs : list DataFrame) (df_names : list string) :
  0 < length df_names →
  length df_names < length dfs →
  (2 ≤ length df_names →
   merge_dataframes set_list pd_merge dfs merge_columns selected_columns df_names merge_type
   = with_total (sum_list (len <$> dfs))
       <$> merge_dataframes set_list pd_merge (take (length df_names) dfs) merge_columns
             selected_columns df_names merge_type)
  ∧ (∀ df rest name,
       dfs = df :: rest → df_names = [name] →
       merge_dataframes set_list pd_merge dfs merge_columns selected_columns df_names
         merge_type
       = (λ p, (p, mkStats (sum_list (len <$> dfs)) ∅ ∅ (len p)))
           <$> filter_df set_list merge_columns selected_columns 0 df name)
  ∧ (∀ merged stats,
       merge_dataframes set_list pd_merge dfs merge_columns selected_columns df_names
         merge_type = Ok (merged, stats) →
       total_rows_original stats = sum_list (len <$> dfs)
       ∧ ∀ i, length df_names ≤ i →
           new_rows_per_file stats !! i = None
           ∧ missing_rows_per_file stats !! i = None).
Proof.
  intros Hpos Hshort. split_and!.
  - intros Htwo. unfold merge_dataframes.
    rewrite !decide_False by (rewrite ?length_take_le; lia).
    rewrite zip_take_labels.
    destruct (filter_loop set_list merge_columns selected_columns 0 (zip dfs df_names))
      as [filtered|e]; simpl; [|done].
    destruct (list_getitem filtered 0) as [first|e]; simpl; [|done].
    by destruct (merge_loop pd_merge merge_columns merge_type 1 (List.skipn 1 filtered)
                   {| result_df := first; new_rows := ∅; missing_rows := ∅ |}).
  - intros df rest name -> ->. destruct rest as [|df1 rest]; [simpl in Hshort; lia|].
    unfold merge_dataframes. rewrite decide_False by (simpl; lia). simpl.
    by destruct (filter_df set_list merge_columns selected_columns 0 df name).
  - intros merged stats
      (_ & filtered & first & st & Hf & Hfirst & Hloop & -> & ->)%merge_dataframes_Ok.
    split; [done|]. intros i Hi. simpl.
    apply filter_loop_Ok in Hf as [Hflen _]. rewrite length_zip in Hflen.
    destruct (merge_loop_outside _ _ _ _ i Hloop) as [-> ->]; [|done].
    right. destruct filtered as [|first' rest]; [discriminate|].
    rewrite length_drop. simpl in *. lia.
Qed.

End engine_properties.

(** ** The order of enumeration *)

Section enumeration.
Variables set_list set_list' : gset string → list string.
Variable pd_merge : DataFrame → DataFrame → string → string → string → result DataFrame.
Variable merge_columns : gmap string string.
Variable selected_columns : gmap string (gset string).
Variable merge_type : string.

Lemma filter_df_ext (i : nat) (df : DataFrame) (name : string) :
  agree_at set_list set_list' merge_columns selected_columns i →
  filter_df set_list merge_columns selected_columns i df name
  = filter_df set_list' merge_columns selected_columns i df name.
Proof.
  intros Hagree. unfold filter_df, dict_getitem.
  destruct (merge_columns !! df_key i) as [key|] eqn:Hkey; [|done]. simpl.
  by rewrite (Hagree key Hkey).
Qed.

Lemma filter_loop_ext (i : nat) (zipped : list (DataFrame * string)) :
  (∀ n, n < length zipped →
     agree_at set_list set_list' merge_columns selected_columns (i + n)) →
  filter_loop set_list merge_columns selected_columns i zipped
  = filter_loop set_list' merge_columns selected_columns i zipped.
Proof.
  revert i. induction zipped as [|[df name] rest IH]; intros i Hagree; simpl; [done|].
  rewrite filter_df_ext, IH; [done | |].
  - intros n Hn. rewrite Nat.add_succ_l, <- Nat.add_succ_r. apply Hagree. simpl. lia.
  - rewrite <- (Nat.add_0_r i). apply Hagree. simpl. lia.
Qed.

(** The merge uses the enumeration at the sets it projects, and
    nowhere else. *)
Lemma merge_dataframes_ext (dfs : list DataFrame) (df_names : list string) :
  (∀ n, n < length dfs → agree_at set_list set_list' merge_columns selected_columns n) →
  merge_dataframes set_list pd_merge dfs merge_columns selected_columns df_names merge_type
  = merge_dataframes set_list' pd_merge dfs merge_columns selected_columns df_names
      merge_type.
Proof.
  intros Hagree. unfold merge_dataframes. rewrite filter_loop_ext; [done|].
  intros n Hn. apply Hagree. rewrite length_zip in Hn. lia.
Qed.
End enumeration.


(** ** The end-to-end scenario *)

Lemma enumerates_pair (set_list : gset string → list string) (s : gset string)
    (a b : string) :
  (∀ s, set_list s ≡ₚ elements s) →
  elements s = [a; b] →
  set_list s = [a; b] ∨ set_list s = [b; a].
Proof.
  intros Henum Hs. apply Permutation_length_2_inv. by rewrite <- Hs, Henum.
Qed.

(** The scenario under an enumeration that gives [la] and [lb]. *)
Lemma scenario_agree (set_list : gset string → list string) (la lb : list string) :
  set_list cols_A = la → set_list cols_B = lb →
  ∀ n, n < 2 → agree_at set_list (enum_AB la lb) keys_AB all_AB n.
Proof.
  intros HA HB n Hn key Hkey. destruct n as [|[|n]]; [| |lia].
  - assert (key = "id") as -> by (vm_compute in Hkey; congruence).
    assert (default ∅ (all_AB !! df_key 0) ∪ {[ "id" ]} = cols_A) as ->
      by (vm_compute; reflexivity).
    rewrite HA. unfold enum_AB. by rewrite decide_True.
  - assert (key = "id") as -> by (vm_compute in Hkey; congruence).
    assert (default ∅ (all_AB !! df_key 1) ∪ {[ "id" ]} = cols_B) as ->
      by (vm_compute; reflexivity).
    rewrite HB. unfold enum_AB. rewrite decide_False; [done|].
    intros Heq. assert ("val" ∈ cols_A) as Hval by (rewrite <- Heq; set_solver).
    unfold cols_A in Hval. set_solver.
Qed.

(** C3: tables A (rows (1, a), (2, b)) and B (rows (2, 10), (3, 20)),
    labelled A and B, keyed by id, all columns selected, outer join:
    the merge returns the columns id, A_name and B_val, in the order
    the enumeration of the selections gives them, and read in that
    order the rows (1, a, null), (2, b, 10), (3, null, 20); one key of
    B is new, one key of A is missing, four rows went in and three came
    out.  This holds for every order of enumeration and either rule
    for null keys. *)
Theorem end_to_end_scenario (null_match : bool) (set_list : gset string → list string) :
  (∀ s, set_list s ≡ₚ elements s) →
  ∃ merged stats,
    merge_dataframes set_list (Pandas.merge null_match) [table_A; table_B] keys_AB all_AB
      ["A"; "B"] "outer" = Ok (merged, stats)
    ∧ columns merged ≡ₚ ["id"; "A_name"; "B_val"]
    ∧ rows <$> Pandas.getitem_cols merged ["id"; "A_name"; "B_val"]
      = Ok [[VInt 1; VStr "a"; VNull]; [VInt 2; VStr "b"; VInt 10];
            [VInt 3; VNull; VInt 20]]
    ∧ new_rows_per_file stats !! 1 = Some 1
    ∧ missing_rows_per_file stats !! 1 = Some 1
    ∧ total_rows_original stats = 4
    ∧ total_rows_merged stats = 3.
Proof.
  intros Henum.
  destruct (enumerates_pair set_list cols_A "id" "name" Henum) as [HA|HA];
    [by vm_compute | |];
    (destruct (enumerates_pair set_list cols_B "id" "val" Henum) as [HB|HB];
      [by vm_compute | |]);
    rewrite (merge_dataframes_ext set_list _ _ _ _ _ [table_A; table_B] _
               (scenario_agree _ _ _ HA HB));
    destruct null_match;
    (eexists _, _; split; [vm_compute; reflexivity|]);
    (split; [apply (bool_decide_unpack _); vm_compute; exact I|]);
    vm_compute; by split_and!.
Qed.

(** ** Null keys in the statistics *)

(** C1 (where the code departs from it): tables A, K and C hold no
    null; K is keyed by another column than A and shares no key with
    it, so the outer join of the first step leaves two rows whose id
    is null.  At the second step the key column of the running result
    is 1, 2, null, null and that of C is 1, 2, 9: one distinct key
    value of the running result, the null, is absent from C, but the
    code records two missing rows, one for each null cell, because a
    Python [set] keeps every NaN of a numeric column apart. *)
Theorem null_keys_counted_apart (null_match : bool) :
  ∃ merged stats filtered running,
    merge_dataframes elements (Pandas.merge null_match) [table_A; table_K; table_C]
      keys_AKC all_AKC ["A"; "K"; "C"] "outer" = Ok (merged, stats)
    ∧ filter_loop elements keys_AKC all_AKC 0
        (zip [table_A; table_K; table_C] ["A"; "K"; "C"]) = Ok filtered
    ∧ filtered !! 2 = Some projected_C
    ∧ running_before (Pandas.merge null_match) keys_AKC "outer" filtered 2 = Ok running
    ∧ Pandas.getitem_col (result_df running) "id" = Ok [VInt 1; VInt 2; VNull; VNull]
    ∧ Pandas.getitem_col projected_C "id" = Ok [VInt 1; VInt 2; VInt 9]
    ∧ missing_rows_per_file stats !! 2 = Some 2
    ∧ distinct_absent [VInt 1; VInt 2; VNull; VNull] [VInt 1; VInt 2; VInt 9] = 1.
Proof.
  destruct null_match;
    (eexists _, _, _, _; split; [vm_compute; reflexivity|]);
    (split; [vm_compute; reflexivity|]);
    (split; [reflexivity|]);
    (split; [vm_compute; reflexivity|]);
    vm_compute; by split_and!.
Qed.

(** ** The properties at the worked inputs *)

Lemma elements_enumerates (s : gset string) : elements s ≡ₚ elements s.
Proof. reflexivity. Qed.

Lemma end_to_end_scenario_witness :
  ∃ merged stats,
    merge_dataframes elements (Pandas.merge true) [table_A; table_B] keys_AB all_AB
      ["A"; "B"] "outer" = Ok (merged, stats)
    ∧ columns merged ≡ₚ ["id"; "A_name"; "B_val"]
    ∧ rows <$> Pandas.getitem_cols merged ["id"; "A_name"; "B_val"]
      = Ok [[VInt 1; VStr "a"; VNull]; [VInt 2; VStr "b"; VInt 10];
            [VInt 3; VNull; VInt 20]]
    ∧ new_rows_per_file stats !! 1 = Some 1
    ∧ missing_rows_per_file stats !! 1 = Some 1
    ∧ total_rows_original stats = 4
    ∧ total_rows_merged stats = 3.
Proof.
  apply (end_to_end_scenario true elements). exact elements_enumerates.
Defined.

Lemma merge_needs_two_tables_witness :
  merge_dataframes elements (Pandas.merge true) [table_A] keys_AB all_AB ["A"] "outer"
  = Raise InsufficientInputError.
Proof.
  apply merge_needs_two_tables. simpl. lia.
Defined.

Lemma merge_totals_witness :
  2 ≤ length [table_A; table_B]
  ∧ total_rows_original stats_AB = sum_list (len <$> [table_A; table_B])
  ∧ total_rows_merged stats_AB = len merged_AB.
Proof.
  apply (merge_totals elements (Pandas.merge true) keys_AB all_AB "outer"
           [table_A; table_B] ["A"; "B"]).
  vm_compute. reflexivity.
Defined.

Lemma projection_renames_by_stem_witness :
  ∃ key,
    keys_X !! df_key 0 = Some key
    ∧ columns orders_X =
        (λ c, if decide (c = key) then key else stem "orders.csv" +:+ "_" +:+ c)
          <$> elements (default ∅ (all_X !! df_key 0) ∪ {[key]})
    ∧ ("."%char ∉ list_ascii_of_string (stem "orders.csv"))
    ∧ ("orders.csv" = stem "orders.csv"
       ∨ ∃ rest, "orders.csv" = stem "orders.csv" +:+ "." +:+ rest)
    ∧ stem "orders.csv" = "orders".
Proof.
  apply (projection_renames_by_stem elements keys_X all_X 0 table_X "orders.csv" orders_X).
  vm_compute. reflexivity.
Defined.

(** C2, refuted as stated: under the label sales.2024.csv the column X
    becomes sales_X; the label without its trailing extension is
    sales.2024, and no column sales.2024_X is made. *)
Lemma rename_cuts_at_first_dot :
  filter_df elements keys_X all_X 0 table_X "sales.2024.csv"
    = Ok (mkDataFrame ["id"; "sales_X"] [[VInt 1; VInt 7]])
  ∧ strip_extension "sales.2024.csv" +:+ "_" +:+ "X" = "sales.2024_X"
  ∧ "sales.2024_X" ∉ ["id"; "sales_X"].
Proof.
  split_and!; [vm_compute; reflexivity | reflexivity |].
  apply (bool_decide_unpack _). vm_compute. exact I.
Qed.




(** C10, refuted as stated: with no label at all the merge of two
    tables raises an [IndexError]. *)
Lemma no_labels_raises :
  length ([] : list string) < length [table_A; table_B]
  ∧ merge_dataframes elements (Pandas.merge true) [table_A; table_B] keys_AB all_AB
      [] "outer" = Raise (IndexError "list index out of range").
Proof.
  split; [simpl; lia | vm_compute; reflexivity].
Qed.

Lemma unlabelled_tables_ignored_witness :
  merge_dataframes elements (Pandas.merge true) [table_A; table_B; table_C] keys_AB all_AB
    ["A"; "B"] "outer"
  = with_total (sum_list (len <$> [table_A; table_B; table_C]))
      <$> merge_dataframes elements (Pandas.merge true)
            (take (length ["A"; "B"]) [table_A; table_B; table_C]) keys_AB all_AB
            ["A"; "B"] "outer".
Proof.
  destruct (unlabelled_tables_ignored elements (Pandas.merge true) keys_AB all_AB "outer"
              [table_A; table_B; table_C] ["A"; "B"]) as (Hlabelled & _).
  - simpl. lia.
  - simpl. lia.
  - apply Hlabelled. simpl. lia.
Defined.

(** * Further properties of the code *)

(** ** The loader and the loop that calls it *)

Section loader_extras.
Variables read_csv read_excel : UploadedFile → result DataFrame.

Lemma read_file_Raise (f : UploadedFile) (e : exn) :
  read_file read_csv read_excel f = Raise e → ∃ cause, e = ParseError cause.
Proof.
  unfold read_file, try_except.
  destruct (if endswith (name f) ".csv" then read_csv f
            else if endswith (name f) ".xls" || endswith (name f) ".xlsx"
                 then read_excel f
                 else Raise (ValueError "Unsupported file format")) as [df|cause];
    [done|].
  intros [= <-]. by exists cause.
Qed.

(** X1: whatever goes wrong in [read_file], the parser raising or the
    extension being unknown, leaves it as a ValueError whose message is
    "Error reading file: " and the text of the cause: no exception of
    another class escapes the loader. *)
Theorem read_file_raises_only_value_error (f : UploadedFile) (e : exn) :
  read_file read_csv read_excel f = Raise e →
  class_name e = "ValueError"
  ∧ ∃ cause, e = ValueError ("Error reading file: " +:+ str cause)
             ∧ (recognized (name f) = true → parser_for read_csv read_excel f = Raise cause)
             ∧ (recognized (name f) = false → cause = FormatError).
Proof.
  unfold read_file, recognized, parser_for, try_except.
  destruct (endswith (name f) ".csv"); simpl.
  - destruct (read_csv f) as [df|cause]; [done|]. intros [= <-].
    split; [done|]. exists cause. by split_and!.
  - destruct (endswith (name f) ".xls" || endswith (name f) ".xlsx").
    + destruct (read_excel f) as [df|cause]; [done|]. intros [= <-].
      split; [done|]. exists cause. by split_and!.
    + intros [= <-]. split; [done|]. exists FormatError. by split_and!.
Qed.

(** X2: [read_file] returns a table exactly when the name ends in .csv,
    .xls or .xlsx and the parser for that extension returns it; a .csv
    upload never reaches the Excel parser and any other upload never
    reaches the CSV parser. *)
Theorem read_file_returns_iff (f : UploadedFile) (df : DataFrame) :
  (read_file read_csv read_excel f = Ok df
   ↔ recognized (name f) = true ∧ parser_for read_csv read_excel f = Ok df)
  ∧ (∀ other, endswith (name f) ".csv" = true →
       read_file read_csv other f = read_file read_csv read_excel f)
  ∧ (∀ other, endswith (name f) ".csv" = false →
       read_file other read_excel f = read_file read_csv read_excel f).
Proof.
  unfold read_file, recognized, parser_for, try_except. split_and!.
  - destruct (endswith (name f) ".csv"); simpl.
    + destruct (read_csv f); split; (try by intros [_ ?]); by intros [= <-].
    + destruct (endswith (name f) ".xls" || endswith (name f) ".xlsx").
      * destruct (read_excel f); split; (try by intros [_ ?]); by intros [= <-].
      * split; [done | by intros [? _]].
  - by intros other ->.
  - by intros other ->.
Qed.

Lemma load_uploads_Ok (files : list UploadedFile) (dfs0 : list DataFrame)
    (names0 : list string) (dfs : list DataFrame) (names : list string) :
  load_uploads read_csv read_excel files dfs0 names0 = Ok (dfs, names) →
  ∃ read, dfs = dfs0 ++ read
          ∧ names = names0 ++ (name <$> files)
          ∧ Forall2 (λ f df, read_file read_csv read_excel f = Ok df) files read.
Proof.
  revert dfs0 names0. induction files as [|f files IH]; intros dfs0 names0; simpl.
  - intros [= <- <-]. exists []. by rewrite !app_nil_r.
  - intros (df & Hdf & Hrest)%bind_Ok.
    apply IH in Hrest as (read & -> & -> & Hall).
    exists (df :: read). rewrite <- !app_assoc. split_and!; [done | done |].
    by constructor.
Qed.

(** X3: the reading loop of [main], started with empty lists, gives one
    table and one label per upload, in the order of the uploads, each
    label the name of its file and each table what [read_file] made
    of the file. *)
Theorem load_uploads_one_per_file (files : list UploadedFile) (dfs : list DataFrame)
    (names : list string) :
  load_uploads read_csv read_excel files [] [] = Ok (dfs, names) →
  names = name <$> files
  ∧ length dfs = length files
  ∧ length names = length dfs
  ∧ Forall2 (λ f df, read_file read_csv read_excel f = Ok df) files dfs.
Proof.
  intros (read & -> & -> & Hall)%load_uploads_Ok. simpl.
  split_and!; [done | | | done].
  - symmetry. by eapply Forall2_length.
  - rewrite length_fmap. by eapply Forall2_length.
Qed.

(** X4: one upload that cannot be read fails the whole loop, with the
    ValueError of [read_file]: no list of the tables read so far
    comes back. *)
Theorem load_uploads_all_or_nothing (files : list UploadedFile) (f : UploadedFile)
    (e : exn) :
  f ∈ files →
  read_file read_csv read_excel f = Raise e →
  ∃ cause, load_uploads read_csv read_excel files [] []
           = Raise (ValueError ("Error reading file: " +:+ str cause)).
Proof.
  generalize (@nil DataFrame) (@nil string).
  induction files as [|f' files IH]; intros dfs0 names0 Hin Hfail; [by inversion Hin|].
  simpl. destruct (read_file read_csv read_excel f') as [df|e'] eqn:Hf'; simpl.
  - apply elem_of_cons in Hin as [-> | Hin]; [congruence|]. by apply IH.
  - apply read_file_Raise in Hf' as (cause & ->). by exists cause.
Qed.
End loader_extras.

(** ** The merge engine: failures and statistics *)

Lemma size_list_to_set_le (items : list key_elem) :
  size (list_to_set items : gset key_elem) ≤ length items.
Proof.
  induction items as [|e items IH]; [by rewrite list_to_set_nil, size_empty|].
  rewrite list_to_set_cons, size_union_alt, size_singleton. simpl.
  apply le_n_S. etrans; [|apply IH].
  apply subseteq_size, subseteq_difference_l. reflexivity.
Qed.

Lemma key_set_size_le (of_right : bool) (cells : list value) (others : gset key_elem) :
  size (key_set of_right cells ∖ others) ≤ length cells.
Proof.
  etrans; [apply subseteq_size, subseteq_difference_l; reflexivity|].
  etrans; [apply size_list_to_set_le|].
  unfold series_items. by rewrite length_imap.
Qed.

(** A cell that is not null is in the set of a column exactly when it
    is a cell of the column. *)
Lemma elem_of_key_set (of_right : bool) (cells : list value) (v : value) :
  v ≠ VNull → Key v ∈ key_set of_right cells ↔ v ∈ cells.
Proof.
  intros Hv. unfold key_set, series_items.
  rewrite elem_of_list_to_set, elem_of_lookup_imap. split.
  - intros (row & w & Heq & Hrow). apply list_elem_of_lookup_2 in Hrow.
    case_decide; [by destruct (is_numeric cells); simplify_eq|]. by simplify_eq.
  - intros (row & Hrow)%list_elem_of_lookup_1. exists row, v.
    by rewrite decide_False.
Qed.

(** The set of a column without a null holds its cells and no more. *)
Lemma key_set_no_null (of_right : bool) (cells : list value) (e : key_elem) :
  VNull ∉ cells → e ∈ key_set of_right cells ↔ ∃ v, e = Key v ∧ v ∈ cells.
Proof.
  intros Hnull. unfold key_set, series_items.
  rewrite elem_of_list_to_set, elem_of_lookup_imap. split.
  - intros (row & w & -> & Hrow). apply list_elem_of_lookup_2 in Hrow.
    rewrite decide_False by (by intros ->). by exists w.
  - intros (v & -> & Hin). destruct (list_elem_of_lookup_1 _ _ Hin) as [row Hrow].
    exists row, v. rewrite decide_False by (by intros ->). done.
Qed.

(** No cell of one column, none being null, is missing from the set of
    the other exactly when the difference of the two sets is empty. *)
Lemma key_set_difference_empty (side : bool) (cells others : list value) :
  VNull ∉ cells →
  size (key_set side cells ∖ key_set (negb side) others) = 0
  ↔ ∀ v, v ∈ cells → v ∈ others.
Proof.
  intros Hnull. rewrite size_empty_iff. split.
  - intros Hempty v Hv. assert (v ≠ VNull) as Hne by (by intros ->).
    apply (elem_of_key_set (negb side) others v Hne).
    destruct (decide (Key v ∈ key_set (negb side) others)) as [|Hout]; [done|].
    exfalso. apply (not_elem_of_empty (C := gset key_elem) (Key v)).
    rewrite <- Hempty. apply elem_of_difference. split; [|done].
    by apply elem_of_key_set.
  - intros Hsub e. split; [|by intros ?%not_elem_of_empty].
    intros [Hin Hout]%elem_of_difference.
    apply (key_set_no_null side cells e Hnull) in Hin as (v & -> & Hv).
    exfalso. apply Hout. apply elem_of_key_set; [by intros ->|]. by apply Hsub.
Qed.

Lemma getitem_col_length (df : DataFrame) (c : string) (cells : list value) :
  Pandas.getitem_col df c = Ok cells → length cells = len df.
Proof.
  unfold Pandas.getitem_col, len. destruct (col_index c (columns df)); [|done].
  intros [= <-]. by rewrite length_fmap.
Qed.

Section engine_extras.
Variable set_list : gset string → list string.
Variable pd_merge : DataFrame → DataFrame → string → string → string → result DataFrame.
Variable merge_columns : gmap string string.
Variable selected_columns : gmap string (gset string).
Variable merge_type : string.
Hypothesis set_list_enumerates : ∀ s, set_list s ≡ₚ elements s.

(** X5: every failure of [merge_dataframes] is one of four: fewer than two
    tables (the ValueError of the guard), a [KeyError] while projecting,
    an [IndexError] when there is no label at all, or the ValueError
    "Error merging DataFrames: ..." around the cause of a join step
    that failed.  Nothing else escapes. *)
Theorem merge_failure_taxonomy (dfs : list DataFrame) (df_names : list string) (e : exn) :
  merge_dataframes set_list pd_merge dfs merge_columns selected_columns df_names merge_type
    = Raise e →
  (length dfs < 2 ∧ e = InsufficientInputError)
  ∨ (2 ≤ length dfs
     ∧ ∃ label, e = KeyError label
                ∧ filter_loop set_list merge_columns selected_columns 0 (zip dfs df_names)
                  = Raise (KeyError label))
  ∨ (2 ≤ length dfs ∧ df_names = [] ∧ e = IndexError "list index out of range")
  ∨ (2 ≤ length dfs
     ∧ ∃ filtered cause,
         filter_loop set_list merge_columns selected_columns 0 (zip dfs df_names)
           = Ok filtered
         ∧ e = MergeError cause).
Proof.
  unfold merge_dataframes. case_decide as Hlen; [intros [= <-]; by left|].
  intros [Hf | (filtered & Hf & Hr)]%bind_Raise; right.
  - left. split; [lia|]. destruct (filter_loop_Raise _ _ _ _ _ _ Hf) as [label ->].
    by exists label.
  - right. pose proof (filter_loop_Ok _ _ _ _ _ _ Hf) as [Hflen _].
    rewrite length_zip in Hflen.
    destruct filtered as [|first rest]; simpl in Hr.
    + left. injection Hr as <-. split_and!; [lia | | done].
      destruct df_names; [done | simpl in Hflen; lia].
    + right. split; [lia|]. apply bind_Raise in Hr as [Hr | (st & _ & [=])].
      rewrite drop_0 in Hr.
      assert (∃ cause, e = MergeError cause) as [cause ->]; [|by eauto].
      eapply merge_loop_Raise; [| |done].
      * eapply (filter_loop_keys _ _ _ _ _ 0); [done | simpl; lia].
      * intros n Hn. eapply filter_loop_keys; [done | simpl; lia].
Qed.

(** In a merge that succeeds every step from 1 to the number of
    projected tables less one left its two counts. *)
Lemma merge_stats_present (dfs : list DataFrame) (df_names : list string)
    (merged : DataFrame) (stats : MergeStats) (i : nat) :
  merge_dataframes set_list pd_merge dfs merge_columns selected_columns df_names merge_type
    = Ok (merged, stats) →
  1 ≤ i < length dfs `min` length df_names →
  is_Some (new_rows_per_file stats !! i) ∧ is_Some (missing_rows_per_file stats !! i).
Proof.
  intros (_ & filtered & first & st & Hf & Hfirst & Hloop & -> & ->)%merge_dataframes_Ok Hi.
  apply filter_loop_Ok in Hf as [Hflen _]. rewrite length_zip in Hflen.
  destruct (lookup_lt_is_Some_2 (List.skipn 1 filtered) (i - 1)) as [table_i Hlook].
  { rewrite length_drop. lia. }
  destruct (merge_loop_step_stats _ _ _ 1 (i - 1) _ _ _ _ Hloop Hlook)
    as (_ & _ & _ & ls & rs & _ & _ & _ & _ & _ & Hnew & Hmiss).
  replace (1 + (i - 1)) with i in * by lia. simpl. by rewrite Hnew, Hmiss.
Qed.

(** Past the projected tables, and at table 0, there is no entry. *)
Lemma merge_stats_absent (dfs : list DataFrame) (df_names : list string)
    (merged : DataFrame) (stats : MergeStats) (i : nat) :
  merge_dataframes set_list pd_merge dfs merge_columns selected_columns df_names merge_type
    = Ok (merged, stats) →
  ¬ (1 ≤ i < length dfs `min` length df_names) →
  new_rows_per_file stats !! i = None ∧ missing_rows_per_file stats !! i = None.
Proof.
  intros (_ & filtered & first & st & Hf & Hfirst & Hloop & -> & ->)%merge_dataframes_Ok Hi.
  apply filter_loop_Ok in Hf as [Hflen _]. rewrite length_zip in Hflen.
  destruct (merge_loop_outside _ _ _ _ _ _ _ i Hloop) as [Hnew Hmiss].
  { rewrite length_drop. destruct filtered; [discriminate|]. simpl in *. lia. }
  simpl. by rewrite Hnew, Hmiss.
Qed.

(** X6: the two per-file dictionaries of a merge that succeeded have the
    same keys: the indices from 1 up to, and without, the number of
    projected tables (the lesser of the numbers of tables and labels).
    Table 0 has no entry. *)
Theorem statistics_keys (dfs : list DataFrame) (df_names : list string)
    (merged : DataFrame) (stats : MergeStats) (i : nat) :
  merge_dataframes set_list pd_merge dfs merge_columns selected_columns df_names merge_type
    = Ok (merged, stats) →
  (is_Some (new_rows_per_file stats !! i) ↔ 1 ≤ i < length dfs `min` length df_names)
  ∧ (is_Some (missing_rows_per_file stats !! i)
     ↔ 1 ≤ i < length dfs `min` length df_names).
Proof.
  intros Hm.
  destruct (decide (1 ≤ i < length dfs `min` length df_names)) as [Hi|Hi].
  - destruct (merge_stats_present _ _ _ _ _ Hm Hi). by split.
  - destruct (merge_stats_absent _ _ _ _ _ Hm Hi) as [-> ->].
    split; (split; [by intros [? ?] | done]).
Qed.

(** X7: the count of new rows of table [i] is at most the number of rows
    of that table, and the count of missing rows at most the number of
    rows of the running result the table is joined to. *)
Theorem statistics_bounded (dfs : list DataFrame) (df_names : list string)
    (merged : DataFrame) (stats : MergeStats) (i : nat) (df : DataFrame) :
  merge_dataframes set_list pd_merge dfs merge_columns selected_columns df_names merge_type
    = Ok (merged, stats) →
  1 ≤ i → i < length df_names → dfs !! i = Some df →
  ∃ new missing filtered running,
    new_rows_per_file stats !! i = Some new
    ∧ missing_rows_per_file stats !! i = Some missing
    ∧ filter_loop set_list merge_columns selected_columns 0 (zip dfs df_names)
      = Ok filtered
    ∧ running_before pd_merge merge_columns merge_type filtered i = Ok running
    ∧ new ≤ len df
    ∧ missing ≤ len (result_df running).
Proof.
  intros (_ & filtered & first & st & Hf & Hfirst & Hloop & -> & ->)%merge_dataframes_Ok
    Hi Hname Hdf.
  destruct (lookup_lt_is_Some_2 df_names i Hname) as [name Hnm].
  assert (zip dfs df_names !! i = Some (df, name)) as Hz.
  { apply lookup_zip_with_Some. by exists df, name. }
  pose proof (filter_loop_Ok _ _ _ _ _ _ Hf) as [_ Hall].
  destruct (Hall _ _ _ Hz) as (p & Hp & Hproj). simpl in Hproj.
  apply filter_df_Ok in Hproj as (key & js & _ & _ & _ & Hrows).
  destruct (merge_loop_step_stats _ _ _ 1 (i - 1) (List.skipn 1 filtered) p _ _ Hloop)
    as (running & lc & rc & ls & rs & Hrun & _ & _ & Hls & Hrs & Hnew & Hmiss).
  { rewrite lookup_drop. by replace (1 + (i - 1)) with i by lia. }
  replace (1 + (i - 1)) with i in * by lia.
  apply getitem_col_length in Hls, Hrs.
  exists (size (key_set true rs ∖ key_set false ls)),
    (size (key_set false ls ∖ key_set true rs)), filtered, running. simpl.
  split_and!; [done | done | done | | |].
  - unfold running_before, list_getitem. by rewrite Hfirst.
  - etrans; [apply key_set_size_le|]. rewrite Hrs. unfold len.
    by rewrite Hrows, length_fmap.
  - etrans; [apply key_set_size_le|]. by rewrite Hls.
Qed.
End engine_extras.

(** ** The merge engine: projection and renaming *)

Lemma string_app_inj (prefix a b : string) : prefix +:+ a = prefix +:+ b → a = b.
Proof.
  induction prefix as [|c prefix IH]; simpl; [done|]. intros [= H]. by apply IH.
Qed.

Lemma stem_no_dot (name : string) :
  "."%char ∉ list_ascii_of_string name → stem name = name.
Proof.
  unfold stem. induction name as [|c s' IH]; simpl; [done|].
  intros Hdot. apply not_elem_of_cons in Hdot as [Hc Hs'].
  destruct (Ascii.eqb_spec c ".") as [->|_]; [done|].
  specialize (IH Hs'). destruct (split_cons "." s') as (w & ws & Hsplit).
  rewrite Hsplit in *. simpl in *. by rewrite IH.
Qed.

(** X8: a label without a dot is its own stem, and only such a label is;
    taking the stem twice changes nothing. *)
Theorem stem_fixed_points (name : string) :
  (stem name = name ↔ "."%char ∉ list_ascii_of_string name)
  ∧ stem (stem name) = stem name.
Proof.
  destruct (stem_first_dot name) as [Hdot _]. split.
  - split; [by intros <- | apply stem_no_dot].
  - by apply stem_no_dot.
Qed.

Section projection_extras.
Variable set_list : gset string → list string.
Variable merge_columns : gmap string string.
Variable selected_columns : gmap string (gset string).
Hypothesis set_list_enumerates : ∀ s, set_list s ≡ₚ elements s.

(** X9: the projection of a table has the rows of the table, one for one,
    and one column per member of the selection with the key added: a
    key that is also selected gives one column, not two.  Every row
    has a cell for every column. *)
Theorem projection_shape (i : nat) (df : DataFrame) (name key : string) (p : DataFrame) :
  merge_columns !! df_key i = Some key →
  filter_df set_list merge_columns selected_columns i df name = Ok p →
  len p = len df
  ∧ length (columns p) = size (default ∅ (selected_columns !! df_key i) ∪ {[key]})
  ∧ Forall (λ r, length r = length (columns p)) (rows p).
Proof.
  intros Hkey (key' & js & Hkey' & Hjs & Hcols & Hrows)%filter_df_Ok.
  rewrite Hkey in Hkey'. injection Hkey' as <-. cbv zeta in *. split_and!.
  - unfold len. by rewrite Hrows, length_fmap.
  - rewrite Hcols, length_fmap. unfold size, set_size. simpl.
    by rewrite set_list_enumerates.
  - rewrite Hrows, Hcols. apply Forall_fmap, Forall_forall. intros r _. simpl.
    rewrite !length_fmap. symmetry. by eapply Forall2_length.
Qed.


(** X11: the columns of a projection carry distinct names as long as no
    renamed column takes the name of the key: that is, as long as the
    key is not the stem, an underscore and the name of a column kept. *)
Theorem projection_columns_distinct (i : nat) (df : DataFrame) (name key : string)
    (p : DataFrame) :
  merge_columns !! df_key i = Some key →
  (∀ c, c ∈ default ∅ (selected_columns !! df_key i) → stem name +:+ "_" +:+ c ≠ key) →
  filter_df set_list merge_columns selected_columns i df name = Ok p →
  NoDup (columns p).
Proof.
  intros Hkey Hfresh (key' & js & Hkey' & _ & Hcols & _)%filter_df_Ok.
  rewrite Hkey in Hkey'. injection Hkey' as <-. cbv zeta in *. rewrite Hcols.
  apply NoDup_fmap_2_strong.
  - intros a b Ha Hb. rewrite set_list_enumerates, elem_of_elements in Ha, Hb.
    assert (∀ c, c ∈ default ∅ (selected_columns !! df_key i) ∪ {[key]} → c ≠ key →
                 stem name +:+ "_" +:+ c ≠ key) as Hfresh'.
    { intros c [Hc | Hc%elem_of_singleton]%elem_of_union Hne; [by apply Hfresh | done]. }
    repeat case_decide; subst; try done.
    + intros Heq. symmetry in Heq. by apply Hfresh' in Heq.
    + intros Heq. by apply Hfresh' in Heq.
    + intros Heq. by apply string_app_inj, string_app_inj in Heq.
  - rewrite set_list_enumerates. apply NoDup_elements.
Qed.

(** X12: two tables whose labels have one stem, as data.csv and data.xlsx
    have, give a column they both select the same new name: the
    renaming does not tell such tables apart. *)
Theorem same_stem_same_names (i j : nat) (df1 df2 : DataFrame) (name1 name2 c : string)
    (p1 p2 : DataFrame) :
  stem name1 = stem name2 →
  c ∈ default ∅ (selected_columns !! df_key i) →
  c ∈ default ∅ (selected_columns !! df_key j) →
  merge_columns !! df_key i ≠ Some c →
  merge_columns !! df_key j ≠ Some c →
  filter_df set_list merge_columns selected_columns i df1 name1 = Ok p1 →
  filter_df set_list merge_columns selected_columns j df2 name2 = Ok p2 →
  stem name1 +:+ "_" +:+ c ∈ columns p1 ∧ stem name1 +:+ "_" +:+ c ∈ columns p2.
Proof.
  intros Hstem Hc1 Hc2 Hk1 Hk2
    (key1 & js1 & Hkey1 & _ & Hcols1 & _)%filter_df_Ok
    (key2 & js2 & Hkey2 & _ & Hcols2 & _)%filter_df_Ok.
  cbv zeta in *. rewrite Hcols1, Hcols2, <- Hstem. split.
  - apply list_elem_of_fmap. exists c. split.
    + rewrite decide_False; [done | congruence].
    + rewrite set_list_enumerates, elem_of_elements. by apply elem_of_union_l.
  - apply list_elem_of_fmap. exists c. split.
    + rewrite decide_False; [done | congruence].
    + rewrite set_list_enumerates, elem_of_elements. by apply elem_of_union_l.
Qed.
End projection_extras.

(** ** The merge engine: the steps of the two loops *)

Lemma filter_loop_Raise_at (set_list : gset string → list string)
    (merge_columns : gmap string string) (selected_columns : gmap string (gset string))
    (i : nat) (zipped : list (DataFrame * string)) (e : exn) :
  filter_loop set_list merge_columns selected_columns i zipped = Raise e →
  ∃ n df name, zipped !! n = Some (df, name)
               ∧ filter_df set_list merge_columns selected_columns (i + n) df name
                 = Raise e.
Proof.
  revert i. induction zipped as [|[df0 name0] rest IH]; intros i; simpl; [done|].
  intros [H | (p & _ & H)]%bind_Raise.
  - exists 0, df0, name0. by rewrite Nat.add_0_r.
  - apply bind_Raise in H as [H | (ps & _ & [=])].
    destruct (IH _ H) as (n & df & name & Hn & Hf).
    exists (S n), df, name. by rewrite Nat.add_succ_r.
Qed.

Lemma filter_loop_fails_at (set_list : gset string → list string)
    (merge_columns : gmap string string) (selected_columns : gmap string (gset string))
    (zipped : list (DataFrame * string)) (n : nat) (df : DataFrame) (name : string)
    (e : exn) :
  zipped !! n = Some (df, name) →
  filter_df set_list merge_columns selected_columns n df name = Raise e →
  ∃ label, filter_loop set_list merge_columns selected_columns 0 zipped
           = Raise (KeyError label).
Proof.
  intros Hn Hfail.
  destruct (filter_loop set_list merge_columns selected_columns 0 zipped)
    as [filtered|e'] eqn:E.
  - apply filter_loop_Ok in E as [_ Hall]. destruct (Hall _ _ _ Hn) as (p & _ & Hp).
    simpl in Hp. congruence.
  - apply filter_loop_Raise in E as [label ->]. by eauto.
Qed.

Section step_extras.
Variable set_list : gset string → list string.
Variable pd_merge : DataFrame → DataFrame → string → string → string → result DataFrame.
Variable merge_columns : gmap string string.
Variable selected_columns : gmap string (gset string).
Variable merge_type : string.
Hypothesis set_list_enumerates : ∀ s, set_list s ≡ₚ elements s.

(** X13: with two tables or more, the merge fails with a [KeyError] while
    projecting when [merge_columns] has no entry for a labelled table,
    and when a column selected for a labelled table is not a column of
    that table; without an entry for the first table the error names
    the dictionary key df0. *)
Theorem projection_failures (dfs : list DataFrame) (df_names : list string) :
  2 ≤ length dfs →
  (∀ i, i < length dfs → i < length df_names → merge_columns !! df_key i = None →
     ∃ label,
       merge_dataframes set_list pd_merge dfs merge_columns selected_columns df_names
         merge_type = Raise (KeyError label))
  ∧ (∀ i df c,
       dfs !! i = Some df → i < length df_names →
       c ∈ default ∅ (selected_columns !! df_key i) → c ∉ columns df →
       ∃ label,
         merge_dataframes set_list pd_merge dfs merge_columns selected_columns df_names
           merge_type = Raise (KeyError label))
  ∧ (0 < length df_names → merge_columns !! df_key 0 = None →
     merge_dataframes set_list pd_merge dfs merge_columns selected_columns df_names
       merge_type = Raise (KeyError "df0")).
Proof.
  intros Hlen. unfold merge_dataframes. rewrite decide_False by lia.
  assert (∀ i df name e,
            dfs !! i = Some df → df_names !! i = Some name →
            filter_df set_list merge_columns selected_columns i df name = Raise e →
            ∃ label,
              filter_loop set_list merge_columns selected_columns 0 (zip dfs df_names)
                ≫= (λ filtered_dfs,
                     list_getitem filtered_dfs 0 ≫= λ result,
                       merge_loop pd_merge merge_columns merge_type 1
                         (List.skipn 1 filtered_dfs) (mkRunning result ∅ ∅)
                       ≫= λ st,
                         Ok (result_df st,
                             mkStats (sum_list (len <$> dfs)) (new_rows st)
                               (missing_rows st) (len (result_df st))))
              = Raise (KeyError label)) as Hfail.
  { intros i df name e Hdf Hname Hf.
    destruct (filter_loop_fails_at set_list merge_columns selected_columns
                (zip dfs df_names) i df name e) as [label ->]; [|done|by eauto].
    apply lookup_zip_with_Some. by exists df, name. }
  split_and!.
  - intros i Hi Hname Hnone.
    destruct (lookup_lt_is_Some_2 dfs i Hi) as [df Hdf].
    destruct (lookup_lt_is_Some_2 df_names i Hname) as [name Hnm].
    apply (Hfail i df name (KeyError (df_key i)) Hdf Hnm).
    unfold filter_df, dict_getitem. by rewrite Hnone.
  - intros i df c Hdf Hname Hc Hout.
    destruct (lookup_lt_is_Some_2 df_names i Hname) as [name Hnm].
    destruct (filter_df set_list merge_columns selected_columns i df name)
      as [p|e] eqn:E; [|by eapply Hfail].
    apply filter_df_Ok in E as (key & js & _ & Hjs & _). cbv zeta in Hjs. exfalso.
    assert (c ∈ set_list (default ∅ (selected_columns !! df_key i) ∪ {[key]})) as Hin.
    { rewrite set_list_enumerates, elem_of_elements. by apply elem_of_union_l. }
    apply list_elem_of_lookup_1 in Hin as [n Hn].
    destruct (Forall2_lookup_l _ _ _ _ _ Hjs Hn) as (k & _ & Hidx).
    by apply col_index_Some, list_elem_of_lookup_2 in Hidx.
  - intros Hname Hnone.
    destruct dfs as [|df dfs']; [simpl in Hlen; lia|].
    destruct df_names as [|name names']; [simpl in Hname; lia|].
    simpl. unfold filter_df, dict_getitem. by rewrite Hnone.
Qed.

(** X14: the first step of the join loop whose guarded block raises ends the
    merge: what comes out is the ValueError "Error merging
    DataFrames: " with the text of that very exception, whatever
    tables would have followed. *)
Theorem failing_join_aborts (dfs : list DataFrame) (df_names : list string)
    (filtered : list DataFrame) (i : nat) (table_i : DataFrame) (running : Running)
    (left_col right_col : string) (cause : exn) :
  2 ≤ length dfs →
  filter_loop set_list merge_columns selected_columns 0 (zip dfs df_names) = Ok filtered →
  1 ≤ i → filtered !! i = Some table_i →
  running_before pd_merge merge_columns merge_type filtered i = Ok running →
  merge_columns !! df_key 0 = Some left_col →
  merge_columns !! df_key i = Some right_col →
  join_step pd_merge merge_type i left_col right_col table_i running = Raise cause →
  merge_dataframes set_list pd_merge dfs merge_columns selected_columns df_names merge_type
    = Raise (ValueError ("Error merging DataFrames: " +:+ str cause)).
Proof.
  intros Hlen Hf Hi Hlook Hrun Hlc Hrc Hjoin.
  unfold merge_dataframes. rewrite decide_False by lia. rewrite Hf. simpl.
  unfold running_before in Hrun. apply bind_Ok in Hrun as (first & Hfirst & Hrun).
  rewrite Hfirst. simpl.
  assert (List.skipn 1 filtered !! (i - 1) = Some table_i) as Hmid.
  { rewrite lookup_drop. by replace (1 + (i - 1)) with i by lia. }
  rewrite <- (take_drop_middle _ _ _ Hmid), merge_loop_app, Hrun. simpl.
  rewrite length_take_le by (apply lookup_lt_Some in Hmid; lia).
  cbn [merge_loop Nat.add]. replace (S (i - 1)) with i by lia.
  unfold merge_step, dict_getitem. rewrite Hlc, Hrc. simpl. by rewrite Hjoin.
Qed.

(** X15: a step of the join loop that succeeds keeps the rows of the join it
    made.  When the two key columns have one name the running result
    is the joined table as it is; when they differ the column named as
    the right key is gone from the running result and every other
    column of the joined table is still there. *)
Theorem step_keeps_one_key (i : nat) (df : DataFrame) (st st' : Running)
    (left_col right_col : string) :
  merge_columns !! df_key 0 = Some left_col →
  merge_columns !! df_key i = Some right_col →
  merge_step pd_merge merge_columns merge_type i df st = Ok st' →
  ∃ joined,
    pd_merge (result_df st) df left_col right_col merge_type = Ok joined
    ∧ len (result_df st') = len joined
    ∧ (left_col = right_col → result_df st' = joined)
    ∧ (left_col ≠ right_col →
       right_col ∈ columns joined
       ∧ (right_col ∉ columns (result_df st'))
       ∧ ∀ c, c ≠ right_col → (c ∈ columns (result_df st') ↔ c ∈ columns joined)).
Proof.
  intros Hlc Hrc. unfold merge_step, dict_getitem. rewrite Hlc, Hrc. simpl.
  destruct (join_step pd_merge merge_type i left_col right_col df st) as [st1|e] eqn:E;
    [|done].
  simpl. intros [= <-]. unfold join_step in E. inv_ok. injection E as <-.
  rename a1 into joined, a2 into result. exists joined. simpl.
  case_decide as Hne.
  - unfold Pandas.drop in Ha2.
    destruct (col_index right_col (columns joined)) as [k|] eqn:Hk; [|done].
    injection Ha2 as <-. simpl. split_and!; [done | | done |].
    + unfold len. simpl. by rewrite length_fmap.
    + intros _. split_and!.
      * by apply col_index_Some, list_elem_of_lookup_2 in Hk.
      * rewrite list_elem_of_filter. by intros [? _].
      * intros c Hc. rewrite list_elem_of_filter. by split; [intros [_ ?] | ].
  - injection Ha2 as <-. split_and!; [done | done | done | done].
Qed.

(** X16: a step whose table has no null key cell records no new row
    exactly when every key cell of the table occurs in the key column
    of the running result; a step whose running result has no null
    key cell records no missing row exactly when every key cell of
    the running result occurs in the key column of the table. *)
Theorem step_zero_counts (i : nat) (df : DataFrame) (st st' : Running)
    (left_col right_col : string) (left_cells right_cells : list value) :
  merge_columns !! df_key 0 = Some left_col →
  merge_columns !! df_key i = Some right_col →
  Pandas.getitem_col (result_df st) left_col = Ok left_cells →
  Pandas.getitem_col df right_col = Ok right_cells →
  merge_step pd_merge merge_columns merge_type i df st = Ok st' →
  (VNull ∉ right_cells →
   (new_rows st' !! i = Some 0 ↔ ∀ v, v ∈ right_cells → v ∈ left_cells))
  ∧ (VNull ∉ left_cells →
     (missing_rows st' !! i = Some 0 ↔ ∀ v, v ∈ left_cells → v ∈ right_cells)).
Proof.
  intros Hlc Hrc Hls Hrs
    (lc & rc & ls & rs & Hlc' & Hrc' & Hls' & Hrs' & -> & ->)%merge_step_Ok.
  rewrite Hlc in Hlc'. rewrite Hrc in Hrc'. injection Hlc' as <-. injection Hrc' as <-.
  rewrite Hls in Hls'. rewrite Hrs in Hrs'. injection Hls' as <-. injection Hrs' as <-.
  rewrite !lookup_insert_eq. split; intros Hnull.
  - rewrite <- (key_set_difference_empty true right_cells left_cells Hnull). simpl.
    split; [by intros [= ->] | by intros ->].
  - rewrite <- (key_set_difference_empty false left_cells right_cells Hnull). simpl.
    split; [by intros [= ->] | by intros ->].
Qed.
End step_extras.

(** ** The merge engine: what it reads of its dictionaries *)

Section dictionaries.
Variable set_list : gset string → list string.
Variable pd_merge : DataFrame → DataFrame → string → string → string → result DataFrame.
Variables merge_columns merge_columns' : gmap string string.
Variables selected_columns selected_columns' : gmap string (gset string).
Variable merge_type : string.

Lemma filter_loop_reads (i : nat) (zipped : list (DataFrame * string)) :
  (∀ n, n < length zipped →
     merge_columns !! df_key (i + n) = merge_columns' !! df_key (i + n)
     ∧ selected_columns !! df_key (i + n) = selected_columns' !! df_key (i + n)) →
  filter_loop set_list merge_columns selected_columns i zipped
  = filter_loop set_list merge_columns' selected_columns' i zipped.
Proof.
  revert i. induction zipped as [|[df name] rest IH]; intros i Hsame; simpl; [done|].
  destruct (Hsame 0) as [Hmc Hsc]; [simpl; lia|]. rewrite Nat.add_0_r in Hmc, Hsc.
  assert (filter_df set_list merge_columns selected_columns i df name
          = filter_df set_list merge_columns' selected_columns' i df name) as ->.
  { unfold filter_df, dict_getitem. by rewrite Hmc, Hsc. }
  rewrite IH; [done|].
  intros n Hn. rewrite Nat.add_succ_l, <- Nat.add_succ_r. apply Hsame. simpl. lia.
Qed.

Lemma merge_loop_reads (i : nat) (dfs : list DataFrame) (st : Running) :
  (dfs ≠ [] → merge_columns !! df_key 0 = merge_columns' !! df_key 0) →
  (∀ n, n < length dfs →
     merge_columns !! df_key (i + n) = merge_columns' !! df_key (i + n)) →
  merge_loop pd_merge merge_columns merge_type i dfs st
  = merge_loop pd_merge merge_columns' merge_type i dfs st.
Proof.
  revert i st. induction dfs as [|df rest IH]; intros i st H0 Hsame; simpl; [done|].
  pose proof (Hsame 0) as Hi. rewrite Nat.add_0_r in Hi.
  assert (merge_step pd_merge merge_columns merge_type i df st
          = merge_step pd_merge merge_columns' merge_type i df st) as ->.
  { unfold merge_step, dict_getitem. rewrite H0 by done. rewrite Hi by (simpl; lia).
    done. }
  destruct (merge_step pd_merge merge_columns' merge_type i df st) as [st1|e]; simpl;
    [|done].
  apply IH.
  - intros _. by apply H0.
  - intros n Hn. rewrite Nat.add_succ_l, <- Nat.add_succ_r. apply Hsame. simpl. lia.
Qed.

(** X17: the merge reads [merge_columns] and [selected_columns] at the keys
    of the tables that have a label, and nowhere else: entries for
    other keys, present or not, change nothing in the outcome. *)
Theorem merge_reads_labelled_entries (dfs : list DataFrame) (df_names : list string) :
  (∀ i, i < length dfs `min` length df_names →
     merge_columns !! df_key i = merge_columns' !! df_key i
     ∧ selected_columns !! df_key i = selected_columns' !! df_key i) →
  merge_dataframes set_list pd_merge dfs merge_columns selected_columns df_names merge_type
  = merge_dataframes set_list pd_merge dfs merge_columns' selected_columns' df_names
      merge_type.
Proof.
  intros Hsame. unfold merge_dataframes. case_decide as Hlen; [done|].
  rewrite (filter_loop_reads 0 (zip dfs df_names))
    by (intros n Hn; rewrite length_zip in Hn; by apply Hsame).
  destruct (filter_loop set_list merge_columns' selected_columns' 0 (zip dfs df_names))
    as [filtered|e] eqn:Hf; simpl; [|done].
  apply filter_loop_Ok in Hf as [Hflen _]. rewrite length_zip in Hflen.
  destruct filtered as [|first rest]; simpl; [done|]. rewrite drop_0.
  rewrite (merge_loop_reads 1 rest); [done | |].
  - intros _. apply Hsame. simpl in Hflen. lia.
  - intros n Hn. apply Hsame. simpl in *. lia.
Qed.
End dictionaries.

(** ** The caller: what [main] can run into *)

Section main_extras.
Variable set_list : gset string → list string.
Variable pd_merge : DataFrame → DataFrame → string → string → string → result DataFrame.
Variable merge_columns : gmap string string.
Variable selected_columns : gmap string (gset string).
Variable merge_type : string.
Hypothesis set_list_enumerates : ∀ s, set_list s ≡ₚ elements s.

(** X18: with tables, keys and selections as the page of [main] supplies
    them (two uploads or more, one label per table, every key and
    every selected column a column of its table), every table is
    projected, and the merge either succeeds or fails with the
    ValueError "Error merging DataFrames: ..." of a join step: the
    guard, the projection and the indexing of the projections cannot
    fail. *)
Theorem main_merge_outcomes (dfs : list DataFrame) (df_names : list string) :
  widget_choice dfs merge_columns selected_columns →
  2 ≤ length dfs →
  length df_names = length dfs →
  (∃ filtered,
     filter_loop set_list merge_columns selected_columns 0 (zip dfs df_names) = Ok filtered
     ∧ length filtered = length dfs)
  ∧ ((∃ merged stats,
        merge_dataframes set_list pd_merge dfs merge_columns selected_columns df_names
          merge_type = Ok (merged, stats))
     ∨ ∃ cause,
         merge_dataframes set_list pd_merge dfs merge_columns selected_columns df_names
           merge_type = Raise (MergeError cause)).
Proof.
  intros Hchoice Hlen Hnames.
  destruct (filter_loop set_list merge_columns selected_columns 0 (zip dfs df_names))
    as [filtered|e] eqn:Hf.
  - pose proof (filter_loop_Ok _ _ _ _ _ _ Hf) as [Hflen _].
    rewrite length_zip, Hnames, Nat.min_id in Hflen.
    split; [by exists filtered|].
    unfold merge_dataframes. rewrite decide_False by lia. rewrite Hf. simpl.
    destruct filtered as [|first rest]; [simpl in Hflen; lia|]. simpl. rewrite drop_0.
    destruct (merge_loop pd_merge merge_columns merge_type 1 rest
                {| result_df := first; new_rows := ∅; missing_rows := ∅ |})
      as [st|e] eqn:Hloop; simpl; [left; by eauto|].
    right. assert (∃ cause, e = MergeError cause) as [cause ->]; [|by eauto].
    eapply merge_loop_Raise; [| |done].
    + eapply (filter_loop_keys _ _ _ _ _ 0); [done | simpl; lia].
    + intros n Hn. eapply filter_loop_keys; [done | simpl; lia].
  - exfalso. apply filter_loop_Raise_at in Hf as (n & df & name & Hz & Hfail).
    apply lookup_zip_with_Some in Hz as (df' & name' & [= <- <-] & Hdf & _).
    destruct (Hchoice n df Hdf) as [(key & Hkey & Hin) (selected & Hsel & Hsub)].
    destruct (filter_df_total set_list merge_columns selected_columns set_list_enumerates
                n df name key Hkey Hin) as [p Hp].
    + rewrite Hsel. simpl. apply Hsub.
    + simpl in Hfail. congruence.
Qed.

Lemma row_matching_statistics_Ok (stats : MergeStats) (df_names : list string)
    (indices : list nat) :
  (∀ i, i ∈ indices → i < length df_names
                     ∧ is_Some (new_rows_per_file stats !! i)
                     ∧ is_Some (missing_rows_per_file stats !! i)) →
  ∃ lines, row_matching_statistics stats df_names indices = Ok lines
           ∧ (λ line, line.1.1.1) <$> lines = indices.
Proof.
  induction indices as [|i rest IH]; intros Hall; simpl; [by exists []|].
  destruct (Hall i) as (Hi & [new Hnew] & [missing Hmiss]); [left|].
  destruct (lookup_lt_is_Some_2 df_names i Hi) as [label Hlabel].
  destruct IH as (lines & -> & Hidx); [intros j Hj; apply Hall; by right|].
  unfold list_getitem, stat_getitem. rewrite Hlabel, Hnew, Hmiss. simpl.
  exists ((i, label, new, missing) :: lines). by rewrite fmap_cons, Hidx.
Qed.

(** X19: after a merge that succeeded with no fewer labels than tables, as
    [main] calls it, the loop of [main] that reads the statistics of
    the files 1 to N - 1 finds every label and every entry: it gives
    one line per file and raises neither [IndexError] nor
    [KeyError]. *)
Theorem main_statistics_found (dfs : list DataFrame) (df_names : list string)
    (merged : DataFrame) (stats : MergeStats) :
  merge_dataframes set_list pd_merge dfs merge_columns selected_columns df_names merge_type
    = Ok (merged, stats) →
  length dfs ≤ length df_names →
  ∃ lines,
    row_matching_statistics stats df_names (range_from_1 (length dfs)) = Ok lines
    ∧ (λ line, line.1.1.1) <$> lines = seq 1 (length dfs - 1)
    ∧ length lines = length dfs - 1.
Proof.
  intros Hm Hnames.
  destruct (row_matching_statistics_Ok stats df_names (range_from_1 (length dfs)))
    as (lines & Hlines & Hidx).
  - intros i [k [-> Hk]%lookup_seq]%list_elem_of_lookup_1. split; [lia|].
    eapply merge_stats_present; [done | lia].
  - exists lines. split_and!; [done | done |].
    rewrite <- (length_fmap (λ line, line.1.1.1)), Hidx. unfold range_from_1.
    by rewrite length_seq.
Qed.

(** X20: with fewer labels than tables, which [main] never passes, the same
    loop raises an [IndexError] at the first file without a label: the
    label is read before the statistics. *)
Theorem statistics_missing_without_label (dfs : list DataFrame) (df_names : list string)
    (merged : DataFrame) (stats : MergeStats) :
  merge_dataframes set_list pd_merge dfs merge_columns selected_columns df_names merge_type
    = Ok (merged, stats) →
  length df_names < length dfs →
  row_matching_statistics stats df_names (range_from_1 (length dfs))
  = Raise (IndexError "list index out of range").
Proof.
  intros Hm Hshort.
  assert (0 < length df_names) as Hpos.
  { apply merge_dataframes_Ok in Hm as (_ & filtered & first & st & Hf & Hfirst & _).
    apply filter_loop_Ok in Hf as [Hflen _]. rewrite length_zip in Hflen.
    destruct filtered; [discriminate|]. simpl in Hflen. lia. }
  unfold range_from_1.
  replace (length dfs - 1)
    with ((length df_names - 1) + S (length dfs - 1 - length df_names)) by lia.
  rewrite seq_app. replace (1 + (length df_names - 1)) with (length df_names) by lia.
  assert (∀ front back,
            (∀ i, i ∈ front → i < length df_names
                             ∧ is_Some (new_rows_per_file stats !! i)
                             ∧ is_Some (missing_rows_per_file stats !! i)) →
            row_matching_statistics stats df_names back
              = Raise (IndexError "list index out of range") →
            row_matching_statistics stats df_names (front ++ back)
            = Raise (IndexError "list index out of range")) as Happ.
  { induction front as [|i front IH]; intros back Hall Hback; simpl; [done|].
    destruct (Hall i) as (Hi & [new Hnew] & [missing Hmiss]); [left|].
    destruct (lookup_lt_is_Some_2 df_names i Hi) as [label Hlabel].
    unfold list_getitem, stat_getitem. rewrite Hlabel, Hnew, Hmiss. simpl.
    rewrite IH; [done | | done]. intros j Hj. apply Hall. by right. }
  apply Happ.
  - intros i [k [-> Hk]%lookup_seq]%list_elem_of_lookup_1. split; [lia|].
    eapply merge_stats_present; [done | lia].
  - simpl. unfold list_getitem. by rewrite lookup_ge_None_2.
Qed.
End main_extras.

(** ** The further properties at the worked inputs *)

Lemma read_file_raises_only_value_error_witness :
  class_name (ParseError FormatError) = "ValueError"
  ∧ ∃ cause,
      ParseError FormatError = ValueError ("Error reading file: " +:+ str cause)
      ∧ (recognized (name upload_notes) = true →
         parser_for (rejects empty_data) (rejects empty_data) upload_notes = Raise cause)
      ∧ (recognized (name upload_notes) = false → cause = FormatError).
Proof.
  apply (read_file_raises_only_value_error (rejects empty_data) (rejects empty_data)
           upload_notes (ParseError FormatError)).
  reflexivity.
Defined.

Lemma load_uploads_one_per_file_witness :
  ["A.csv"; "B.xlsx"] = name <$> [upload_A; upload_B]
  ∧ length [table_A; table_B] = length [upload_A; upload_B]
  ∧ length ["A.csv"; "B.xlsx"] = length [table_A; table_B]
  ∧ Forall2 (λ f df, read_file (decodes table_A) (decodes table_B) f = Ok df)
      [upload_A; upload_B] [table_A; table_B].
Proof.
  apply (load_uploads_one_per_file (decodes table_A) (decodes table_B)
           [upload_A; upload_B] [table_A; table_B] ["A.csv"; "B.xlsx"]).
  reflexivity.
Defined.

Lemma load_uploads_all_or_nothing_witness :
  ∃ cause,
    load_uploads (decodes table_A) (decodes table_B) [upload_A; upload_notes] [] []
    = Raise (ValueError ("Error reading file: " +:+ str cause)).
Proof.
  apply (load_uploads_all_or_nothing (decodes table_A) (decodes table_B)
           [upload_A; upload_notes] upload_notes (ParseError FormatError)).
  - right. left.
  - reflexivity.
Defined.

Lemma merge_failure_taxonomy_witness :
  (length [table_A; table_B] < 2 ∧ KeyError "missing" = InsufficientInputError)
  ∨ (2 ≤ length [table_A; table_B]
     ∧ ∃ label, KeyError "missing" = KeyError label
                ∧ filter_loop elements keys_missing all_AB 0
                    (zip [table_A; table_B] ["A"; "B"]) = Raise (KeyError label))
  ∨ (2 ≤ length [table_A; table_B]
     ∧ ["A"; "B"] = [] ∧ KeyError "missing" = IndexError "list index out of range")
  ∨ (2 ≤ length [table_A; table_B]
     ∧ ∃ filtered cause,
         filter_loop elements keys_missing all_AB 0 (zip [table_A; table_B] ["A"; "B"])
           = Ok filtered
         ∧ KeyError "missing" = MergeError cause).
Proof.
  apply (merge_failure_taxonomy elements (Pandas.merge true) keys_missing all_AB "outer"
           [table_A; table_B] ["A"; "B"] (KeyError "missing")).
  vm_compute. reflexivity.
Defined.

Lemma statistics_keys_witness :
  (is_Some (new_rows_per_file stats_AB !! 1)
   ↔ 1 ≤ 1 < length [table_A; table_B] `min` length ["A"; "B"])
  ∧ (is_Some (missing_rows_per_file stats_AB !! 1)
     ↔ 1 ≤ 1 < length [table_A; table_B] `min` length ["A"; "B"]).
Proof.
  apply (statistics_keys elements (Pandas.merge true) keys_AB all_AB "outer"
           [table_A; table_B] ["A"; "B"] merged_AB stats_AB 1).
  vm_compute. reflexivity.
Defined.

Lemma statistics_bounded_witness :
  ∃ new missing filtered running,
    new_rows_per_file stats_AB !! 1 = Some new
    ∧ missing_rows_per_file stats_AB !! 1 = Some missing
    ∧ filter_loop elements keys_AB all_AB 0 (zip [table_A; table_B] ["A"; "B"])
      = Ok filtered
    ∧ running_before (Pandas.merge true) keys_AB "outer" filtered 1 = Ok running
    ∧ new ≤ len table_B
    ∧ missing ≤ len (result_df running).
Proof.
  apply (statistics_bounded elements (Pandas.merge true) keys_AB all_AB "outer"
           [table_A; table_B] ["A"; "B"] merged_AB stats_AB 1 table_B).
  - vm_compute. reflexivity.
  - lia.
  - simpl. lia.
  - reflexivity.
Defined.

Lemma projection_shape_witness :
  len projected_A = len table_A
  ∧ length (columns projected_A) = size (default ∅ (all_AB !! df_key 0) ∪ {[ "id" ]})
  ∧ Forall (λ r, length r = length (columns projected_A)) (rows projected_A).
Proof.
  apply (projection_shape elements keys_AB all_AB elements_enumerates 0 table_A "A" "id"
           projected_A).
  - reflexivity.
  - vm_compute. reflexivity.
Defined.


Lemma projection_columns_distinct_witness : NoDup (columns projected_A).
Proof.
  apply (projection_columns_distinct elements keys_AB all_AB elements_enumerates
           0 table_A "A" "id" projected_A).
  - reflexivity.
  - intros c _ Heq. vm_compute in Heq. discriminate.
  - vm_compute. reflexivity.
Defined.

Lemma same_stem_same_names_witness :
  stem "data.csv" +:+ "_" +:+ "X" ∈ columns data_X
  ∧ stem "data.csv" +:+ "_" +:+ "X" ∈ columns data_X.
Proof.
  apply (same_stem_same_names elements keys_AB all_XX elements_enumerates 0 1
           table_X table_X "data.csv" "data.xlsx" "X" data_X data_X).
  - reflexivity.
  - apply (bool_decide_unpack _). vm_compute. exact I.
  - apply (bool_decide_unpack _). vm_compute. exact I.
  - vm_compute. discriminate.
  - vm_compute. discriminate.
  - vm_compute. reflexivity.
  - vm_compute. reflexivity.
Defined.

Lemma projection_failures_witness :
  merge_dataframes elements (Pandas.merge true) [table_A; table_B] ∅ all_AB ["A"; "B"]
    "outer" = Raise (KeyError "df0").
Proof.
  destruct (projection_failures elements (Pandas.merge true) ∅ all_AB "outer"
              elements_enumerates [table_A; table_B] ["A"; "B"]) as (_ & _ & Hfirst).
  - simpl. lia.
  - apply Hfirst; [simpl; lia | reflexivity].
Defined.

Lemma failing_join_aborts_witness :
  merge_dataframes elements (Pandas.merge true) [table_A; table_B] keys_AB all_AB
    ["A"; "B"] "sideways"
  = Raise (ValueError ("Error merging DataFrames: "
                       +:+ str (ValueError "'sideways' is not a valid Merge type"))).
Proof.
  apply (failing_join_aborts elements (Pandas.merge true) keys_AB all_AB "sideways"
           [table_A; table_B] ["A"; "B"] [projected_A; projected_B] 1 projected_B
           (mkRunning projected_A ∅ ∅) "id" "id").
  - simpl. lia.
  - vm_compute. reflexivity.
  - lia.
  - reflexivity.
  - reflexivity.
  - reflexivity.
  - reflexivity.
  - vm_compute. reflexivity.
Defined.

Lemma step_keeps_one_key_witness :
  ∃ joined,
    Pandas.merge true projected_A projected_D "id" "key" "outer" = Ok joined
    ∧ len (result_df running_AD) = len joined
    ∧ ("id" = "key" → result_df running_AD = joined)
    ∧ ("id" ≠ "key" →
       "key" ∈ columns joined
       ∧ ("key" ∉ columns (result_df running_AD))
       ∧ ∀ c, c ≠ "key" → (c ∈ columns (result_df running_AD) ↔ c ∈ columns joined)).
Proof.
  apply (step_keeps_one_key (Pandas.merge true) keys_AD "outer" 1 projected_D
           (mkRunning projected_A ∅ ∅) running_AD "id" "key").
  - reflexivity.
  - reflexivity.
  - vm_compute. reflexivity.
Defined.

Lemma step_zero_counts_witness :
  (VNull ∉ [VInt 2] →
   (new_rows running_AD !! 1 = Some 0 ↔ ∀ v, v ∈ [VInt 2] → v ∈ [VInt 1; VInt 2]))
  ∧ (VNull ∉ [VInt 1; VInt 2] →
     (missing_rows running_AD !! 1 = Some 0
      ↔ ∀ v, v ∈ [VInt 1; VInt 2] → v ∈ [VInt 2])).
Proof.
  apply (step_zero_counts (Pandas.merge true) keys_AD "outer" 1 projected_D
           (mkRunning projected_A ∅ ∅) running_AD "id" "key").
  - reflexivity.
  - reflexivity.
  - reflexivity.
  - reflexivity.
  - vm_compute. reflexivity.
Defined.

Lemma merge_reads_labelled_entries_witness :
  merge_dataframes elements (Pandas.merge true) [table_A; table_B] keys_AB all_AB
    ["A"; "B"] "outer"
  = merge_dataframes elements (Pandas.merge true) [table_A; table_B] keys_AB_more all_AB
      ["A"; "B"] "outer".
Proof.
  apply (merge_reads_labelled_entries elements (Pandas.merge true) keys_AB keys_AB_more
           all_AB all_AB "outer" [table_A; table_B] ["A"; "B"]).
  intros i Hi. destruct i as [|[|i]]; [by vm_compute | by vm_compute | simpl in Hi; lia].
Defined.

Lemma widget_choice_AB : widget_choice [table_A; table_B] keys_AB all_AB.
Proof.
  intros i df Hdf. destruct i as [|[|i]]; simpl in Hdf; [| |done].
  - injection Hdf as <-. split.
    + exists "id". split; [reflexivity | left].
    + exists cols_A. split; [reflexivity|]. unfold cols_A. intros c Hc. simpl.
      apply elem_of_union in Hc as [->%elem_of_singleton | ->%elem_of_singleton];
        [left | right; left].
  - injection Hdf as <-. split.
    + exists "id". split; [reflexivity | left].
    + exists cols_B. split; [reflexivity|]. unfold cols_B. intros c Hc. simpl.
      apply elem_of_union in Hc as [->%elem_of_singleton | ->%elem_of_singleton];
        [left | right; left].
Defined.

Lemma main_merge_outcomes_witness :
  (∃ filtered,
     filter_loop elements keys_AB all_AB 0 (zip [table_A; table_B] ["A"; "B"])
       = Ok filtered
     ∧ length filtered = length [table_A; table_B])
  ∧ ((∃ merged stats,
        merge_dataframes elements (Pandas.merge true) [table_A; table_B] keys_AB all_AB
          ["A"; "B"] "outer" = Ok (merged, stats))
     ∨ ∃ cause,
         merge_dataframes elements (Pandas.merge true) [table_A; table_B] keys_AB all_AB
           ["A"; "B"] "outer" = Raise (MergeError cause)).
Proof.
  apply (main_merge_outcomes elements (Pandas.merge true) keys_AB all_AB "outer"
           elements_enumerates [table_A; table_B] ["A"; "B"]).
  - exact widget_choice_AB.
  - simpl. lia.
  - reflexivity.
Defined.

Lemma main_statistics_found_witness :
  ∃ lines,
    row_matching_statistics stats_AB ["A"; "B"] (range_from_1 (length [table_A; table_B]))
      = Ok lines
    ∧ (λ line, line.1.1.1) <$> lines = seq 1 (length [table_A; table_B] - 1)
    ∧ length lines = length [table_A; table_B] - 1.
Proof.
  apply (main_statistics_found elements (Pandas.merge true) keys_AB all_AB "outer"
           [table_A; table_B] ["A"; "B"] merged_AB stats_AB).
  - vm_compute. reflexivity.
  - simpl. lia.
Defined.

Lemma statistics_missing_without_label_witness :
  row_matching_statistics stats_ABC ["A"; "B"]
    (range_from_1 (length [table_A; table_B; table_C]))
  = Raise (IndexError "list index out of range").
Proof.
  apply (statistics_missing_without_label elements (Pandas.merge true) keys_AB all_AB
           "outer" [table_A; table_B; table_C] ["A"; "B"] merged_AB stats_ABC).
  - vm_compute. reflexivity.
  - simpl. lia.
Defined.
